(** * Cart synchronisation core of the product-catalog front-end

    A shallow embedding of [CartContext.jsx] (the cart provider): the session
    identifier kept in [localStorage], the cart reducer, the five asynchronous
    cart operations and the derived read-only views.

    Quantities, line and product identifiers and stock counts are integers
    in the backend's JSON and are modelled by [Z]. Prices are decimal
    amounts, held by JavaScript as binary64 doubles: they are modelled by
    Rocq's primitive floats, whose addition and multiplication round as
    JavaScript's do. A property that may hold [undefined] or [null] is
    modelled by [js A]. *)

From Stdlib Require Import ZArith Lia.
From Stdlib Require Import PrimFloat.
From Stdlib Require FloatOps SpecFloat QArith.
From stdpp Require Import base option list strings gmap pretty.

(* A decimal literal denotes the nearest double, as it does in JavaScript. *)
Set Warnings "-inexact-float".

Local Open Scope string_scope.
Local Open Scope Z_scope.

(** ** JavaScript values *)

Module JS.

(** A value that is [undefined], [null] or a proper value of type [A]. *)
Inductive js (A : Type) : Type :=
| undefined
| null
| val (a : A).
Arguments undefined {A}.
Arguments null {A}.
Arguments val {A} a.

(** [v !== undefined] *)
Definition is_defined {A} (v : js A) : bool :=
  match v with
  | undefined => false
  | _ => true
  end.

(** [ToNumber]: [undefined] is NaN (no number), [null] is [+0]. *)
Definition to_number (v : js Z) : option Z :=
  match v with
  | undefined => None
  | null => Some 0
  | val n => Some n
  end.

(** The abstract relational comparison [a < b]; [None] is its "undefined"
    result, produced when an operand converts to NaN. *)
Definition is_less_than (a b : js Z) : option bool :=
  match to_number a, to_number b with
  | Some x, Some y => Some (x <? y)
  | _, _ => None
  end.

(** [a >= b] is [false] when [a < b] is true or undefined. *)
Definition ge (a b : js Z) : bool :=
  match is_less_than a b with
  | Some false => true
  | _ => false
  end.

(** [a <= b] is [false] when [b < a] is true or undefined. *)
Definition le (a b : js Z) : bool :=
  match is_less_than b a with
  | Some false => true
  | _ => false
  end.

(** [v || d] for an array-valued [v]: every array, also the empty one, is
    truthy; [undefined] and [null] are falsy. *)
Definition or_array {A} (v : js (list A)) (d : list A) : list A :=
  match v with
  | val l => l
  | _ => d
  end.

(** [v || d] for a string-valued [v]: the empty string is falsy too. *)
Definition or_string (v : js string) (d : string) : string :=
  match v with
  | val s => if decide (s = "") then d else s
  | _ => d
  end.

(** A default parameter value [x = d] applies exactly when the argument is
    [undefined] (omitted or passed as such). *)
Definition default_param {A} (v : js A) (d : js A) : js A :=
  match v with
  | undefined => d
  | _ => v
  end.

(** A JavaScript number held as a double. *)
Abbreviation number := PrimFloat.float.

(** The double of an integer (the nearest one, beyond 2^53). *)
Definition number_of_Z (z : Z) : number :=
  FloatOps.SF2Prim
    (SpecFloat.binary_normalize FloatOps.prec FloatOps.emax z 0 false).

(** The exact value of a double as a rational; none for the infinities and
    NaN. *)
Definition exact_value (x : number) : option QArith_base.Q :=
  match FloatOps.Prim2SF x with
  | SpecFloat.S754_zero _ => Some (QArith_base.inject_Z 0)
  | SpecFloat.S754_finite s m e =>
      Some (QArith_base.Qmult
              (QArith_base.inject_Z (if s then Z.neg m else Z.pos m))
              (QArith_base.Qpower (QArith_base.inject_Z 2) e))
  | _ => None
  end.

(** [arr.reduce(f, init)] *)
Definition reduce {A B} (f : B -> A -> B) (init : B) (arr : list A) : B :=
  fold_left f arr init.

(** [arr.find(p)]: the first element satisfying [p], [undefined] if none. *)
Definition find {A} (p : A -> bool) (arr : list A) : option A :=
  List.find p arr.

End JS.

Import JS.

(** ** Data model *)

(** A product as the backend serves it. *)
Record Product := {
  prod_id : Z;
  name : string;
  price : number;
  stock : js Z;
  available_stock : js Z
}.

(** A cart row of the backend's [GET /cart/{id}] answer. *)
Record BackendItem := {
  row_id : Z;
  product_id : Z;
  row_quantity : Z;
  product : Product
}.

(** A cart line in the front-end format built by [loadCart]. *)
Record CartItem := {
  item_id : Z;
  productId : Z;
  quantity : Z;
  productDetails : Product
}.

Record CartState := {
  items : list CartItem;
  loading : bool;
  error : option string
}.

(** The initial state of [useReducer]. *)
Definition initialState : CartState :=
  {| items := []; loading := false; error := None |}.

(** The actions, by their [type]; [OTHER] stands for any other type string. *)
Inductive Action :=
| SET_CART (payload_items : js (list CartItem))
| SET_LOADING (payload : bool)
| SET_ERROR (payload : string)
| OTHER (type : string).

(** ** CartStore: the reducer *)

Definition cartReducer (state : CartState) (action : Action) : CartState :=
  match action with
  | SET_CART payload_items =>
      {| items := or_array payload_items [];
         loading := false;
         error := None |}
  | SET_LOADING payload =>
      {| items := items state;
         loading := payload;
         error := error state |}
  | SET_ERROR payload =>
      {| items := items state;
         error := Some payload;
         loading := false |}
  | OTHER _ => state
  end.

(** ** SessionIdentity *)

Module Session.

Definition storage_key : string := "cart-session-id".

(** [localStorage.getItem(k)]: [null] when the key is absent. *)
Definition getItem (ls : gmap string string) (k : string) : js string :=
  match ls !! k with
  | Some s => val s
  | None => null
  end.

(** [localStorage.setItem(k, v)] *)
Definition setItem (ls : gmap string string) (k v : string)
  : gmap string string :=
  <[k := v]> ls.

(** [getCartId], with the browser's inputs made explicit: [random36] is
    [Math.random().toString(36)], [now] is [Date.now()] and [ls] is the
    content of [localStorage]. It returns the identifier and the storage it
    leaves behind. [!cartId] holds for [null] and for the empty string. *)
Definition getCartId (random36 : string) (now : Z) (ls : gmap string string)
  : string * gmap string string :=
  let fresh :=
    let cartId := "cart-" +:+ String.substring 2 9 random36 +:+ "-" +:+ pretty now in
    (cartId, setItem ls storage_key cartId) in
  match getItem ls storage_key with
  | val cartId => if decide (cartId = "") then fresh else (cartId, ls)
  | _ => fresh
  end.

End Session.

(** ** SyncEngine: asynchronous programs *)

Inductive Method := GET | POST | PUT | DELETE.

(** [JSON.stringify({ product_id, quantity })] *)
Record RequestBody := {
  body_product_id : Z;
  body_quantity : js Z
}.

Record Request := {
  url : string;
  method : Method;
  body : option RequestBody
}.

(** The JSON object of an answer: the cart rows of a successful load and the
    [detail] of a refusal, either of which may be missing. *)
Record JsonBody := {
  json_items : js (list BackendItem);
  detail : js string
}.

(** What [response.json()] settles to. *)
Inductive JsonResult :=
| JsonRejects (message : string)
| JsonResolves (data : JsonBody).

Record Response := {
  ok : bool;
  json : JsonResult
}.

(** What [fetch] settles to: a network failure rejects the promise. *)
Inductive FetchOutcome :=
| FetchRejects (message : string)
| FetchResolves (response : Response).

(** An asynchronous function body: it returns, throws an [Error] (kept by its
    [message]), or performs one of the effects of the provider and goes on. *)
Inductive Async (A : Type) : Type :=
| Return (a : A)
| Throw (message : string)
| Dispatch (action : Action) (k : Async A)
| Fetch (request : Request) (k : FetchOutcome -> Async A)
| ConsoleError (label message : string) (k : Async A)
| Alert (message : string) (k : Async A).
Arguments Return {A} a.
Arguments Throw {A} message.
Arguments Dispatch {A} action k.
Arguments Fetch {A} request k.
Arguments ConsoleError {A} label message k.
Arguments Alert {A} message k.

Fixpoint bind {A B} (m : Async A) (f : A -> Async B) : Async B :=
  match m with
  | Return a => f a
  | Throw message => Throw message
  | Dispatch action k => Dispatch action (bind k f)
  | Fetch request k => Fetch request (fun o => bind (k o) f)
  | ConsoleError label message k => ConsoleError label message (bind k f)
  | Alert message k => Alert message (bind k f)
  end.

#[global] Instance Async_ret : MRet Async := @Return.
#[global] Instance Async_bind : MBind Async := fun A B f m => bind m f.

(** [try { m } catch (error) { handler(error.message) }] *)
Fixpoint try_catch {A} (m : Async A) (handler : string -> Async A) : Async A :=
  match m with
  | Return a => Return a
  | Throw message => handler message
  | Dispatch action k => Dispatch action (try_catch k handler)
  | Fetch request k => Fetch request (fun o => try_catch (k o) handler)
  | ConsoleError label message k =>
      ConsoleError label message (try_catch k handler)
  | Alert message k => Alert message (try_catch k handler)
  end.

Definition dispatch (action : Action) : Async unit :=
  Dispatch action (Return tt).

(** [await fetch(...)] *)
Definition fetch (request : Request) : Async Response :=
  Fetch request (fun o =>
    match o with
    | FetchRejects message => Throw message
    | FetchResolves response => Return response
    end).

(** [await response.json()] *)
Definition response_json (response : Response) : Async JsonBody :=
  match json response with
  | JsonRejects message => Throw message
  | JsonResolves data => Return data
  end.

Definition console_error (label message : string) : Async unit :=
  ConsoleError label message (Return tt).

Definition alert (message : string) : Async unit :=
  Alert message (Return tt).

(** [arr.map(f)] on a property that may be missing: reading [map] of
    [undefined] or [null] throws a [TypeError]. *)
Definition array_map {A B} (f : A -> B) (arr : js (list A)) : Async (list B) :=
  match arr with
  | val l => Return (map f l)
  | undefined =>
      Throw "Cannot read properties of undefined (reading 'map')"
  | null => Throw "Cannot read properties of null (reading 'map')"
  end.

(** ** SyncEngine: the five operations

    The operations are closures of one render of the provider: [state] is the
    reducer state of that render and [cartId] the session identifier. *)

Definition API_BASE_URL : string := "http://localhost:8000".

(** The conversion from the backend format to the front-end format. *)
Definition toFrontend (item : BackendItem) : CartItem :=
  {| item_id := row_id item;
     productId := product_id item;
     quantity := row_quantity item;
     productDetails :=
       {| prod_id := prod_id (product item);
          name := name (product item);
          price := price (product item);
          stock := stock (product item);
          available_stock := available_stock (product item) |} |}.

Definition loadCart (cartId : string) : Async unit :=
  try_catch
    (dispatch (SET_LOADING true);;
     response ← fetch {| url := API_BASE_URL +:+ "/cart/" +:+ cartId;
                         method := GET;
                         body := None |};
     if negb (ok response) then Throw "Failed to load cart"
     else
       cartData ← response_json response;
       items ← array_map toFrontend (json_items cartData);
       dispatch (SET_CART (val items)))
    (fun message =>
       console_error "Failed to load cart:" message;;
       dispatch (SET_ERROR message)).

Definition addToCart (cartId : string) (product : Product) (quantity : js Z)
  : Async unit :=
  let quantity := default_param quantity (val 1) in
  try_catch
    (dispatch (SET_LOADING true);;
     response ← fetch {| url := API_BASE_URL +:+ "/cart/" +:+ cartId +:+ "/items";
                         method := POST;
                         body := Some {| body_product_id := prod_id product;
                                         body_quantity := quantity |} |};
     if negb (ok response) then
       errorData ← response_json response;
       Throw (or_string (detail errorData) "Failed to add to cart")
     else loadCart cartId)
    (fun message =>
       console_error "Failed to add to cart:" message;;
       dispatch (SET_ERROR message);;
       alert ("Error: " +:+ message)).

Definition removeFromCart (state : CartState) (cartId : string) (pId : Z)
  : Async unit :=
  try_catch
    (match find (fun item => bool_decide (productId item = pId)) (items state) with
     | None => Return tt
     | Some item =>
         response ← fetch {| url := API_BASE_URL +:+ "/cart/" +:+ cartId
                                      +:+ "/items/" +:+ pretty (item_id item);
                             method := DELETE;
                             body := None |};
         if negb (ok response) then Throw "Failed to remove from cart"
         else loadCart cartId
     end)
    (fun message =>
       console_error "Failed to remove from cart:" message;;
       alert ("Error: " +:+ message)).

Definition updateQuantity (state : CartState) (cartId : string) (pId : Z)
  (quantity : js Z) : Async unit :=
  try_catch
    (match find (fun item => bool_decide (productId item = pId)) (items state) with
     | None => Return tt
     | Some item =>
         if le quantity (val 0) then
           removeFromCart state cartId pId;;
           Return tt
         else
           response ← fetch {| url := API_BASE_URL +:+ "/cart/" +:+ cartId
                                        +:+ "/items/" +:+ pretty (item_id item);
                               method := PUT;
                               body := Some {| body_product_id := pId;
                                               body_quantity := quantity |} |};
           if negb (ok response) then
             errorData ← response_json response;
             Throw (or_string (detail errorData) "Failed to update quantity")
           else loadCart cartId
     end)
    (fun message =>
       console_error "Failed to update quantity:" message;;
       alert ("Error: " +:+ message)).

Definition clearCart (cartId : string) : Async unit :=
  try_catch
    (response ← fetch {| url := API_BASE_URL +:+ "/cart/" +:+ cartId;
                         method := DELETE;
                         body := None |};
     if negb (ok response) then Throw "Failed to clear cart"
     else dispatch (SET_CART (val [])))
    (fun message =>
       console_error "Failed to clear cart:" message;;
       alert ("Error: " +:+ message)).

(** ** Running an operation against a network

    The network answers the [n]-th request of a run; an operation is run to
    completion and leaves the sequence of its effects. *)

Inductive Event :=
| EvDispatch (action : Action)
| EvFetch (request : Request)
| EvConsoleError (label message : string)
| EvAlert (message : string).

Inductive Completion (A : Type) : Type :=
| Fulfilled (a : A)
| Rejected (message : string).
Arguments Fulfilled {A} a.
Arguments Rejected {A} message.

Definition Network : Type := nat -> Request -> FetchOutcome.

Fixpoint run {A} (net : Network) (n : nat) (m : Async A)
  : list Event * Completion A :=
  match m with
  | Return a => ([], Fulfilled a)
  | Throw message => ([], Rejected message)
  | Dispatch action k =>
      let r := run net n k in (EvDispatch action :: r.1, r.2)
  | Fetch request k =>
      let r := run net (S n) (k (net n request)) in (EvFetch request :: r.1, r.2)
  | ConsoleError label message k =>
      let r := run net n k in (EvConsoleError label message :: r.1, r.2)
  | Alert message k =>
      let r := run net n k in (EvAlert message :: r.1, r.2)
  end.

(** The effects of an operation started on a fresh run. *)
Definition trace {A} (net : Network) (m : Async A) : list Event :=
  (run net 0 m).1.

(** The actions the reducer receives, in order. *)
Definition dispatched (tr : list Event) : list Action :=
  omap (fun e => match e with EvDispatch a => Some a | _ => None end) tr.

(** The requests sent to the backend, in order. *)
Definition requests (tr : list Event) : list Request :=
  omap (fun e => match e with EvFetch r => Some r | _ => None end) tr.

(** The messages shown to the user by [alert], in order. *)
Definition alerts (tr : list Event) : list string :=
  omap (fun e => match e with EvAlert s => Some s | _ => None end) tr.

(** A network that gives every request the same outcome. *)
Definition always (o : FetchOutcome) : Network := fun _ _ => o.

(** The store after the reducer has processed the dispatched actions. *)
Definition state_after (state : CartState) (tr : list Event) : CartState :=
  fold_left cartReducer (dispatched tr) state.

(** ** DerivedView *)

Definition getCartItemCount (state : CartState) : Z :=
  reduce (fun total item => total + quantity item) 0 (items state).

Definition getCartTotal (state : CartState) : number :=
  reduce (fun total item =>
            PrimFloat.add total
              (PrimFloat.mul (price (productDetails item))
                 (number_of_Z (quantity item))))
    0%float (items state).

Definition getProductQuantityInCart (state : CartState) (pId : Z) : Z :=
  match find (fun item => bool_decide (productId item = pId)) (items state) with
  | Some item => quantity item
  | None => 0
  end.

Definition getAvailableStock (product : Product) : js Z :=
  if is_defined (available_stock product) then available_stock product
  else stock product.

Definition canAddToCart (product : Product) (quantity : js Z) : bool :=
  let quantity := default_param quantity (val 1) in
  let availableStock := getAvailableStock product in
  ge availableStock quantity.

(** ** The specification's sums

    The sum of [f] over a sequence, written out term by term:
    [f x1 + (f x2 + (... + 0))]. *)
Fixpoint sum_over {A} (f : A -> Z) (l : list A) : Z :=
  match l with
  | [] => 0
  | x :: l' => f x + sum_over f l'
  end.

(** The sum of a sequence of doubles as it is accumulated from the left:
    [((acc + x1) + x2) + ...], every addition rounded to a double. *)
Fixpoint rounded_sum_from (acc : number) (terms : list number) : number :=
  match terms with
  | [] => acc
  | x :: terms' => rounded_sum_from (PrimFloat.add acc x) terms'
  end.

Definition rounded_sum (terms : list number) : number :=
  rounded_sum_from 0%float terms.

(** The product [price * quantity] of a line, rounded to a double. *)
Definition line_total (item : CartItem) : number :=
  PrimFloat.mul (price (productDetails item)) (number_of_Z (quantity item)).

(** The specification's total in exact arithmetic: the sum over the items
    of the exact value of the price times the quantity; none when a price is
    not finite. *)
Fixpoint exact_total (l : list CartItem) : option QArith_base.Q :=
  match l with
  | [] => Some (QArith_base.inject_Z 0)
  | item :: l' =>
      match exact_value (price (productDetails item)), exact_total l' with
      | Some p, Some t =>
          Some (QArith_base.Qplus
                  (QArith_base.Qmult p (QArith_base.inject_Z (quantity item)))
                  t)
      | _, _ => None
      end
  end.

(** Two values, when there are any, are the same rational number. *)
Definition same_value (a b : option QArith_base.Q) : bool :=
  match a, b with
  | Some x, Some y => QArith_base.Qeq_bool x y
  | None, None => true
  | _, _ => false
  end.

(** ** The requests of the backend interface

    The five requests the operations send, as the source builds them. *)

Module Requests.

Definition load (cartId : string) : Request :=
  {| url := API_BASE_URL +:+ "/cart/" +:+ cartId;
     method := GET;
     body := None |}.

Definition add (cartId : string) (product_id : Z) (quantity : js Z) : Request :=
  {| url := API_BASE_URL +:+ "/cart/" +:+ cartId +:+ "/items";
     method := POST;
     body := Some {| body_product_id := product_id;
                     body_quantity := quantity |} |}.

Definition remove (cartId : string) (lineId : Z) : Request :=
  {| url := API_BASE_URL +:+ "/cart/" +:+ cartId +:+ "/items/" +:+ pretty lineId;
     method := DELETE;
     body := None |}.

Definition update (cartId : string) (lineId product_id : Z) (quantity : js Z)
  : Request :=
  {| url := API_BASE_URL +:+ "/cart/" +:+ cartId +:+ "/items/" +:+ pretty lineId;
     method := PUT;
     body := Some {| body_product_id := product_id;
                     body_quantity := quantity |} |}.

Definition clear (cartId : string) : Request :=
  {| url := API_BASE_URL +:+ "/cart/" +:+ cartId;
     method := DELETE;
     body := None |}.

(** The request addresses the cart of the session [cartId]. *)
Definition targets (cartId : string) (request : Request) : bool :=
  String.prefix (API_BASE_URL +:+ "/cart/" +:+ cartId) (url request).

End Requests.

(** ** Callers of the provider *)

(** [handleUpdateQuantity] of the cart widget, behind its minus and plus
    buttons. *)
Definition handleUpdateQuantity (state : CartState) (cartId : string)
  (pId newQuantity : Z) : Async unit :=
  if le (val newQuantity) (val 0) then removeFromCart state cartId pId
  else updateQuantity state cartId pId (val newQuantity).

(** [handleAddToCart] of the product card: [canAddToCart(product)] guards
    [addToCart(product)], both with the quantity omitted. *)
Definition handleAddToCart (cartId : string) (product : Product) : Async unit :=
  if canAddToCart product undefined then addToCart cartId product undefined
  else Return tt.

(** The first render of [CartProvider] and its effect: the session
    identifier is read (or generated and stored) and [loadCart] is started
    for it. The result is the storage left behind and the started load. *)
Definition mount (random36 : string) (now : Z) (ls : gmap string string)
  : gmap string string * Async unit :=
  let '(cartId, ls') := Session.getCartId random36 now ls in
  (ls', loadCart cartId).

(** ** A scenario

    The session ["cart-abc123-999"] with one line, two units of a product of
    price 10 with 5 in stock, and the answers of a backend that accepts or
    refuses every request. *)

Module Scenario.

Definition cartId : string := "cart-abc123-999".

Definition lamp : Product :=
  {| prod_id := 1; name := "lamp"; price := 10%float;
     stock := val 5; available_stock := val 5 |}.

Definition line : CartItem :=
  {| item_id := 7; productId := 1; quantity := 2; productDetails := lamp |}.

Definition cart : CartState :=
  {| items := [line]; loading := false; error := None |}.

(** A success answer carrying an empty cart. *)
Definition accepted : FetchOutcome :=
  FetchResolves
    {| ok := true;
       json := JsonResolves {| json_items := val []; detail := undefined |} |}.

(** A refusal with the backend's reason. *)
Definition refused : FetchOutcome :=
  FetchResolves
    {| ok := false;
       json := JsonResolves {| json_items := undefined;
                               detail := val "Insufficient stock" |} |}.

(** The network is down. *)
Definition unreachable : FetchOutcome := FetchRejects "Failed to fetch".

(** A line of [units] units of a product of price [unit_price]. *)
Definition priced (lineId : Z) (unit_price : number) (units : Z) : CartItem :=
  {| item_id := lineId; productId := lineId; quantity := units;
     productDetails := {| prod_id := lineId; name := "item";
                          price := unit_price;
                          stock := val 9; available_stock := val 9 |} |}.

(** Three units at 0.10. *)
Definition dimes : CartState :=
  {| items := [priced 1 0.1%float 3]; loading := false; error := None |}.

(** One unit each at 0.10, 0.20 and 0.30, and the same lines in the
    opposite order. *)
Definition ascending : CartState :=
  {| items := [priced 1 0.1%float 1; priced 2 0.2%float 1; priced 3 0.3%float 1];
     loading := false; error := None |}.

Definition descending : CartState :=
  {| items := [priced 3 0.3%float 1; priced 2 0.2%float 1; priced 1 0.1%float 1];
     loading := false; error := None |}.

End Scenario.

(** * Properties *)

(** ** CartStore *)

Lemma cartReducer_SET_CART state payload_items :
  cartReducer state (SET_CART payload_items)
  = {| items := or_array payload_items []; loading := false; error := None |}.
Proof. reflexivity. Qed.

Lemma cartReducer_SET_LOADING_frame state payload :
  items (cartReducer state (SET_LOADING payload)) = items state
  /\ error (cartReducer state (SET_LOADING payload)) = error state.
Proof. split; reflexivity. Qed.

Lemma cartReducer_SET_ERROR_frame state payload :
  items (cartReducer state (SET_ERROR payload)) = items state.
Proof. reflexivity. Qed.

Lemma cartReducer_OTHER state type : cartReducer state (OTHER type) = state.
Proof. reflexivity. Qed.

(** C7: [SET_CART] and [SET_LOADING] are idempotent: for every state and
    every fixed action of one of these two types, reducing twice by the
    action gives the same state as reducing once. *)
Theorem cartReducer_idempotent :
  (forall state payload_items,
      cartReducer (cartReducer state (SET_CART payload_items))
        (SET_CART payload_items)
      = cartReducer state (SET_CART payload_items))
  /\ (forall state payload,
        cartReducer (cartReducer state (SET_LOADING payload))
          (SET_LOADING payload)
        = cartReducer state (SET_LOADING payload)).
Proof.
  split; intros state p.
  - rewrite !cartReducer_SET_CART. reflexivity.
  - destruct state as [its ld err]. reflexivity.
Qed.

(** C9: a [SET_CART] whose payload has no [items] (missing or [undefined]) or
    has [items: null] leaves the state with the empty list of items, not
    loading and without error, whatever the state was. *)
Theorem cartReducer_SET_CART_falsy_items :
  forall state,
    cartReducer state (SET_CART undefined) = initialState
    /\ cartReducer state (SET_CART null) = initialState
    /\ items (cartReducer state (SET_CART undefined)) = []
    /\ items (cartReducer state (SET_CART null)) = [].
Proof. intros state. repeat split. Qed.

(** ** DerivedView *)

Section Reduce.
Context {A : Type} (f : A -> Z).

(** A left-to-right accumulation of [f] from [acc] adds the sum of [f]. *)
Lemma reduce_add_sum_over (l : list A) (acc : Z) :
  reduce (fun total x => total + f x) acc l = acc + sum_over f l.
Proof.
  unfold reduce. revert acc.
  induction l as [|x l IH]; intros acc; simpl.
  - lia.
  - rewrite IH. lia.
Qed.

Lemma sum_over_app (l1 l2 : list A) :
  sum_over f (l1 ++ l2) = sum_over f l1 + sum_over f l2.
Proof. induction l1 as [|x l1 IH]; simpl; lia. Qed.
End Reduce.

Lemma sum_over_map {A B} (g : A -> B) (f : B -> Z) (l : list A) :
  sum_over f (map g l) = sum_over (fun x => f (g x)) l.
Proof. induction l as [|x l IH]; simpl; congruence. Qed.

Lemma reduce_rounded_sum {A} (f : A -> number) (l : list A) (acc : number) :
  reduce (fun total x => PrimFloat.add total (f x)) acc l
  = rounded_sum_from acc (map f l).
Proof.
  unfold reduce. revert acc.
  induction l as [|x l IH]; intros acc; simpl; [reflexivity | apply IH].
Qed.

Lemma getCartTotal_rounded_sum state :
  getCartTotal state = rounded_sum (map line_total (items state)).
Proof. unfold getCartTotal, rounded_sum. apply (reduce_rounded_sum line_total). Qed.

(** C5, as the code has it: in every cart state the item count is the sum
    of the quantities of the items, and the cart total is the sum of the
    products price times quantity taken in double arithmetic from left to
    right, starting from 0, each product and each partial sum rounded: the
    total of some lines followed by one more line is the total of these
    lines plus the rounded product of that line. In particular, for the cart
    loaded from any sequence of backend rows, the count is the sum of the
    rows' quantities and the total is the rounded left-to-right sum of the
    rows' rounded products. *)
Theorem derived_sums_rounded :
  (forall state,
      getCartItemCount state = sum_over quantity (items state)
      /\ getCartTotal state = rounded_sum (map line_total (items state)))
  /\ (forall its item ld err,
        getCartTotal {| items := its ++ [item]; loading := ld; error := err |}
        = PrimFloat.add
            (getCartTotal {| items := its; loading := ld; error := err |})
            (line_total item))
  /\ (forall state rows,
        let state' := cartReducer state (SET_CART (val (map toFrontend rows))) in
        getCartItemCount state' = sum_over row_quantity rows
        /\ getCartTotal state'
           = rounded_sum
               (map (fun row => PrimFloat.mul (price (product row))
                                  (number_of_Z (row_quantity row)))
                  rows)).
Proof.
  assert (Hcount : forall state,
             getCartItemCount state = sum_over quantity (items state)).
  { intros state. unfold getCartItemCount.
    rewrite (reduce_add_sum_over quantity). lia. }
  split; [|split].
  - intros state. split; [apply Hcount | apply getCartTotal_rounded_sum].
  - intros its item ld err. unfold getCartTotal, reduce. simpl items.
    rewrite fold_left_app. reflexivity.
  - intros state rows state'. split.
    + rewrite Hcount. subst state'. simpl. rewrite sum_over_map. reflexivity.
    + rewrite getCartTotal_rounded_sum. subst state'. simpl.
      rewrite map_map. reflexivity.
Qed.

(** C5 as stated fails on decimal prices. Three units at 0.10 total
    0.30000000000000004, which is not the exact value of three times the
    price; and one unit each at 0.10, 0.20 and 0.30 total 0.6000000000000001
    in this order and 0.6 in the opposite order, so the total is not a sum
    that is independent of the order of the lines. *)
Lemma cartTotal_not_exact_sum :
  getCartTotal Scenario.dimes = 0.30000000000000004%float
  /\ same_value (exact_value (getCartTotal Scenario.dimes))
       (exact_total (items Scenario.dimes)) = false
  /\ Permutation (items Scenario.ascending) (items Scenario.descending)
  /\ getCartTotal Scenario.ascending = 0.6000000000000001%float
  /\ getCartTotal Scenario.descending = 0.6%float
  /\ PrimFloat.eqb (getCartTotal Scenario.ascending)
       (getCartTotal Scenario.descending) = false.
Proof.
  split; [vm_compute; reflexivity|].
  split; [vm_compute; reflexivity|].
  split.
  { simpl. apply Permutation_sym.
    apply (Permutation_rev [Scenario.priced 3 0.3%float 1;
                            Scenario.priced 2 0.2%float 1;
                            Scenario.priced 1 0.1%float 1]). }
  repeat split; vm_compute; reflexivity.
Qed.

Lemma ge_number (a : js Z) (k : Z) :
  ge a (val k) = true <-> exists n, to_number a = Some n /\ k <= n.
Proof.
  unfold ge, is_less_than. simpl.
  destruct (to_number a) as [x|] eqn:Ha.
  - destruct (x <? k) eqn:Hlt.
    + apply Z.ltb_lt in Hlt. split; [discriminate|].
      intros (n & Hn & Hle). injection Hn as <-. lia.
    + apply Z.ltb_ge in Hlt. split; [|reflexivity].
      intros _. exists x. split; [reflexivity | lia].
  - split; [discriminate|]. intros (n & Hn & _). discriminate.
Qed.

(** C6: [getAvailableStock] is [available_stock] when that property is
    present (not [undefined]) and [stock] otherwise; for every product and
    number [k], [canAddToCart product k] is true exactly when
    [k <= getAvailableStock product], as numbers and as JavaScript's [<=];
    with the quantity omitted, [k] is 1. *)
Theorem canAddToCart_iff :
  forall (product : Product) (k : Z),
    getAvailableStock product
    = match available_stock product with
      | undefined => stock product
      | present => present
      end
    /\ (canAddToCart product (val k) = true
        <-> exists n, to_number (getAvailableStock product) = Some n /\ k <= n)
    /\ canAddToCart product (val k) = le (val k) (getAvailableStock product)
    /\ canAddToCart product undefined = canAddToCart product (val 1).
Proof.
  intros product k. repeat split.
  - unfold getAvailableStock. destruct (available_stock product); reflexivity.
  - intros H. apply ge_number. exact H.
  - intros H. apply ge_number in H. exact H.
Qed.

(** C10: the presence test is "not [undefined]": for a product whose
    [available_stock] is [null], [getAvailableStock] is [null], whatever
    [stock] is, and [canAddToCart] is false for every quantity [k >= 1] and
    for the omitted quantity. *)
Theorem canAddToCart_null_available_stock :
  forall (product : Product),
    available_stock product = null ->
    getAvailableStock product = null
    /\ (forall k, 1 <= k -> canAddToCart product (val k) = false)
    /\ canAddToCart product undefined = false.
Proof.
  intros product Hnull.
  assert (Hs : getAvailableStock product = null).
  { unfold getAvailableStock. rewrite Hnull. reflexivity. }
  assert (Hk : forall k, 1 <= k -> canAddToCart product (val k) = false).
  { intros k Hk. unfold canAddToCart. simpl. rewrite Hs.
    unfold ge, is_less_than. simpl.
    destruct (0 <? k) eqn:Hlt; [reflexivity|].
    apply Z.ltb_ge in Hlt. lia. }
  repeat split; [exact Hs | exact Hk |].
  apply (Hk 1). lia.
Qed.

Lemma canAddToCart_null_available_stock_witness :
  let product := {| prod_id := 1; name := "lamp"; price := 10%float;
                    stock := val 5; available_stock := null |} in
  getAvailableStock product = null
  /\ (forall k, 1 <= k -> canAddToCart product (val k) = false)
  /\ canAddToCart product undefined = false.
Proof.
  exact (canAddToCart_null_available_stock
           {| prod_id := 1; name := "lamp"; price := 10%float;
              stock := val 5; available_stock := null |} eq_refl).
Defined.

(** ** SessionIdentity *)

Module SessionFacts.
Import Session.

(** The identifier generated from the random and the time component. *)
Local Abbreviation fresh_id random36 now :=
  ("cart-" +:+ String.substring 2 9 random36 +:+ "-" +:+ pretty now).

Lemma fresh_id_nonempty (random36 : string) (now : Z) : fresh_id random36 now <> "".
Proof. simpl. discriminate. Qed.

(** With no usable identifier in storage, one is generated and stored. *)
Lemma getCartId_absent random36 (now : Z) (ls : gmap string string) :
  ls !! storage_key = None \/ ls !! storage_key = Some "" ->
  getCartId random36 now ls
  = (fresh_id random36 now, <[storage_key := fresh_id random36 now]> ls).
Proof.
  intros [H|H]; unfold getCartId, getItem; rewrite H; [reflexivity|].
  destruct (decide ("" = "")) as [_|Hne]; [reflexivity | congruence].
Qed.

(** A stored identifier is returned and the storage is left as it is. *)
Lemma getCartId_present random36 now (ls : gmap string string) cartId :
  ls !! storage_key = Some cartId -> cartId <> "" ->
  getCartId random36 now ls = (cartId, ls).
Proof.
  intros H Hne. unfold getCartId, getItem. rewrite H.
  destruct (decide (cartId = "")) as [He|_]; [congruence | reflexivity].
Qed.

(** After any call the storage holds the returned identifier, which is not
    the empty string. *)
Lemma getCartId_stored random36 now (ls : gmap string string) :
  (getCartId random36 now ls).2 !! storage_key
  = Some (getCartId random36 now ls).1
  /\ (getCartId random36 now ls).1 <> "".
Proof.
  destruct (ls !! storage_key) as [s|] eqn:H.
  - destruct (decide (s = "")) as [->|Hne].
    + rewrite getCartId_absent by (right; exact H). simpl.
      split; [apply lookup_insert_eq | apply fresh_id_nonempty].
    + rewrite (getCartId_present _ _ _ s) by assumption. simpl.
      split; assumption.
  - rewrite getCartId_absent by (left; exact H). simpl.
    split; [apply lookup_insert_eq | apply fresh_id_nonempty].
Qed.

(** C8: on a first call with no identifier in storage, [getCartId] returns
    ["cart-"], the random component, ["-"] and the time, and stores it
    under the session key; with an identifier in storage it returns it and
    leaves the storage alone; and a second call, whatever the random source
    and the clock give then, returns the identifier of the first call and
    leaves the storage as the first call left it. *)
Theorem getCartId_stable :
  forall (random1 random2 : string) (now1 now2 : Z) (ls : gmap string string),
    let first := getCartId random1 now1 ls in
    let second := getCartId random2 now2 first.2 in
    (ls !! storage_key = None ->
     first.1 = "cart-" +:+ String.substring 2 9 random1 +:+ "-" +:+ pretty now1
     /\ first.2 = <[storage_key := first.1]> ls)
    /\ (forall cartId, ls !! storage_key = Some cartId -> cartId <> "" ->
        first = (cartId, ls))
    /\ first.2 !! storage_key = Some first.1
    /\ second.1 = first.1
    /\ second.2 = first.2.
Proof.
  intros random1 random2 now1 now2 ls first second.
  split; [|split].
  - intros H. subst first.
    rewrite getCartId_absent by (left; exact H). split; reflexivity.
  - intros cartId H Hne. subst first.
    apply getCartId_present; assumption.
  - destruct (getCartId_stored random1 now1 ls) as [Hst Hne].
    fold first in Hst, Hne.
    assert (Hsecond : second = (first.1, first.2)).
    { subst second. apply getCartId_present; assumption. }
    rewrite Hsecond. simpl. auto.
Qed.

Lemma getCartId_stable_witness :
  (getCartId "0.4fzyo82mvyr" 999 ∅).1 = "cart-4fzyo82mv-999"
  /\ (getCartId "0.zzzzzzzzzzz" 1000 (getCartId "0.4fzyo82mvyr" 999 ∅).2).1
     = "cart-4fzyo82mv-999".
Proof.
  pose proof (getCartId_stable "0.4fzyo82mvyr" "0.zzzzzzzzzzz" 999 1000 ∅)
    as (Hfirst & _ & _ & Hsecond & _).
  destruct (Hfirst (lookup_empty _)) as [Hid _].
  split.
  - rewrite Hid. vm_compute. reflexivity.
  - rewrite Hsecond, Hid. vm_compute. reflexivity.
Defined.

End SessionFacts.

(** ** SyncEngine: running programs *)

Section RunFacts.
Context {A : Type} (net : Network).

(** Going on with a bare [return] of the awaited value changes nothing. *)
Lemma run_bind_return (m : Async A) (f : A -> Async A) :
  (forall a, f a = Return a) ->
  forall n, run net n (bind m f) = run net n m.
Proof.
  intros Hf.
  induction m as [a|msg|act k IH|rq k IH|lbl msg k IH|msg k IH];
    intros n; simpl.
  - rewrite Hf. reflexivity.
  - reflexivity.
  - rewrite IH. reflexivity.
  - rewrite IH. reflexivity.
  - rewrite IH. reflexivity.
  - rewrite IH. reflexivity.
Qed.

(** A [catch] around a body that does not throw is never entered. *)
Lemma run_try_catch_fulfilled (m : Async A) (handler : string -> Async A) :
  forall n a,
    (run net n m).2 = Fulfilled a ->
    run net n (try_catch m handler) = run net n m.
Proof.
  induction m as [a|msg|act k IH|rq k IH|lbl msg k IH|msg k IH];
    intros n a' H; simpl in *.
  - reflexivity.
  - discriminate.
  - rewrite (IH n a' H). reflexivity.
  - rewrite (IH _ (S n) a' H). reflexivity.
  - rewrite (IH n a' H). reflexivity.
  - rewrite (IH n a' H). reflexivity.
Qed.

(** A [try] whose [catch] block does not throw does not throw. *)
Lemma run_try_catch_total (m : Async A) (handler : string -> Async A) :
  (forall message n, exists a, (run net n (handler message)).2 = Fulfilled a) ->
  forall n, exists a, (run net n (try_catch m handler)).2 = Fulfilled a.
Proof.
  intros Hh.
  induction m as [a|msg|act k IH|rq k IH|lbl msg k IH|msg k IH];
    intros n; simpl.
  - exists a. reflexivity.
  - apply Hh.
  - apply IH.
  - apply IH.
  - apply IH.
  - apply IH.
Qed.
End RunFacts.

Lemma find_none_productId (pId : Z) (l : list CartItem) :
  Forall (fun item => productId item <> pId) l ->
  find (fun item => bool_decide (productId item = pId)) l = None.
Proof.
  unfold find. induction 1 as [|item l Hne _ IH]; simpl.
  - reflexivity.
  - rewrite bool_decide_eq_false_2 by exact Hne. exact IH.
Qed.

Lemma find_head_productId (item : CartItem) (rest : list CartItem) :
  find (fun i => bool_decide (productId i = productId item)) (item :: rest)
  = Some item.
Proof.
  unfold find. simpl. rewrite bool_decide_eq_true_2 by reflexivity.
  reflexivity.
Qed.

(** [removeFromCart] catches whatever its body throws and its [catch] block
    only logs and alerts: the promise it returns is always fulfilled. *)
Lemma removeFromCart_fulfilled net n state cartId pId :
  (run net n (removeFromCart state cartId pId)).2 = Fulfilled tt.
Proof.
  unfold removeFromCart.
  match goal with
  | |- (run _ _ (try_catch ?body ?handler)).2 = _ =>
      destruct (run_try_catch_total net body handler) with (n := n)
        as [[] H]
  end.
  - intros message n'. exists tt. reflexivity.
  - exact H.
Qed.

(** With a quantity that is [<= 0] in JavaScript's sense (a number at most
    zero, or [null]), [updateQuantity] runs as [removeFromCart] does. *)
Lemma updateQuantity_le_0 net n state cartId pId quantity :
  le quantity (val 0) = true ->
  run net n (updateQuantity state cartId pId quantity)
  = run net n (removeFromCart state cartId pId).
Proof.
  intros Hle. unfold updateQuantity.
  destruct (find (fun item => bool_decide (productId item = pId)) (items state))
    as [item|] eqn:Hfind.
  - rewrite Hle.
    assert (Hbind : run net n (removeFromCart state cartId pId;; Return tt)
                    = run net n (removeFromCart state cartId pId)).
    { apply run_bind_return. intros []. reflexivity. }
    rewrite (run_try_catch_fulfilled net _ _ n tt).
    + exact Hbind.
    + rewrite Hbind. apply removeFromCart_fulfilled.
  - unfold removeFromCart. rewrite Hfind. reflexivity.
Qed.

(** C3: for every product id, every cart state and every number [q <= 0],
    [updateQuantity(p, q)] has the same effects in the same order (dispatched
    actions, backend requests, messages) and the same completion as
    [removeFromCart(p)], against every network and from every position in
    it, hence leaves the same store; also when no line exists for [p]. *)
Theorem updateQuantity_nonpositive_is_removeFromCart :
  forall (net : Network) (n : nat) (state : CartState) (cartId : string)
         (pId q : Z),
    q <= 0 ->
    run net n (updateQuantity state cartId pId (val q))
    = run net n (removeFromCart state cartId pId)
    /\ dispatched (trace net (updateQuantity state cartId pId (val q)))
       = dispatched (trace net (removeFromCart state cartId pId))
    /\ requests (trace net (updateQuantity state cartId pId (val q)))
       = requests (trace net (removeFromCart state cartId pId))
    /\ forall store,
        state_after store (trace net (updateQuantity state cartId pId (val q)))
        = state_after store (trace net (removeFromCart state cartId pId)).
Proof.
  intros net n state cartId pId q Hq.
  assert (Hle : le (val q) (val 0) = true).
  { unfold le, is_less_than. simpl.
    destruct (0 <? q) eqn:Hlt; [|reflexivity].
    apply Z.ltb_lt in Hlt. lia. }
  split; [apply updateQuantity_le_0; exact Hle|].
  unfold trace. rewrite (updateQuantity_le_0 net 0 _ _ _ _ Hle).
  repeat split.
Qed.

(** C4: [removeFromCart] for a product id that matches no item of the
    current state does nothing: no request, no dispatched action, no logged
    or alerted message, and the store (this state or any other) is left as
    it is, with its [error] untouched. *)
Theorem removeFromCart_absent_noop :
  forall (net : Network) (n : nat) (state : CartState) (cartId : string)
         (pId : Z),
    Forall (fun item => productId item <> pId) (items state) ->
    removeFromCart state cartId pId = Return tt
    /\ run net n (removeFromCart state cartId pId) = ([], Fulfilled tt)
    /\ requests (trace net (removeFromCart state cartId pId)) = []
    /\ dispatched (trace net (removeFromCart state cartId pId)) = []
    /\ alerts (trace net (removeFromCart state cartId pId)) = []
    /\ forall store,
        state_after store (trace net (removeFromCart state cartId pId)) = store.
Proof.
  intros net n state cartId pId Habs.
  assert (Hret : removeFromCart state cartId pId = Return tt).
  { unfold removeFromCart. rewrite (find_none_productId _ _ Habs). reflexivity. }
  unfold trace. rewrite Hret. simpl. repeat split.
Qed.

Lemma updateQuantity_nonpositive_is_removeFromCart_witness :
  run (always Scenario.accepted) 0
    (updateQuantity Scenario.cart Scenario.cartId 1 (val 0))
  = run (always Scenario.accepted) 0
      (removeFromCart Scenario.cart Scenario.cartId 1).
Proof.
  refine (proj1 (updateQuantity_nonpositive_is_removeFromCart
                   (always Scenario.accepted) 0 Scenario.cart Scenario.cartId
                   1 0 _)).
  lia.
Defined.

Lemma removeFromCart_absent_noop_witness :
  run (always Scenario.accepted) 0
    (removeFromCart Scenario.cart Scenario.cartId 2)
  = ([], Fulfilled tt).
Proof.
  refine (proj1 (proj2 (removeFromCart_absent_noop
                          (always Scenario.accepted) 0 Scenario.cart
                          Scenario.cartId 2 _))).
  simpl. constructor; [simpl; lia | constructor].
Defined.

(** ** SyncEngine: loading flag and failures *)

(** [loadCart] sets the loading flag before its request. *)
Lemma loadCart_starts_loading net cartId :
  exists tr, trace net (loadCart cartId) = EvDispatch (SET_LOADING true) :: tr.
Proof. unfold trace, loadCart. cbn. eexists. reflexivity. Qed.

(** [addToCart] sets the loading flag before its request. *)
Lemma addToCart_starts_loading net cartId product quantity :
  exists tr,
    trace net (addToCart cartId product quantity)
    = EvDispatch (SET_LOADING true) :: tr.
Proof. unfold trace, addToCart. cbn. eexists. reflexivity. Qed.

(** A failed [loadCart] dispatches [SET_ERROR] with the failure's message
    (and alerts nothing). *)
Lemma loadCart_failure_sets_error cartId message j store :
  let down := always (FetchRejects message) in
  let refused := always (FetchResolves {| ok := false; json := j |}) in
  dispatched (trace down (loadCart cartId))
  = [SET_LOADING true; SET_ERROR message]
  /\ dispatched (trace refused (loadCart cartId))
     = [SET_LOADING true; SET_ERROR "Failed to load cart"]
  /\ error (state_after store (trace down (loadCart cartId))) = Some message
  /\ error (state_after store (trace refused (loadCart cartId)))
     = Some "Failed to load cart"
  /\ alerts (trace down (loadCart cartId)) = []
  /\ alerts (trace refused (loadCart cartId)) = [].
Proof. repeat split. Qed.

(** A failed [addToCart] dispatches [SET_ERROR] and alerts the user. *)
Lemma addToCart_failure_sets_error cartId product quantity message store :
  let down := always (FetchRejects message) in
  dispatched (trace down (addToCart cartId product quantity))
  = [SET_LOADING true; SET_ERROR message]
  /\ error (state_after store (trace down (addToCart cartId product quantity)))
     = Some message
  /\ alerts (trace down (addToCart cartId product quantity))
     = ["Error: " +:+ message]
  /\ dispatched (trace (always Scenario.refused)
                   (addToCart cartId product quantity))
     = [SET_LOADING true; SET_ERROR "Insufficient stock"]
  /\ alerts (trace (always Scenario.refused) (addToCart cartId product quantity))
     = ["Error: Insufficient stock"].
Proof. repeat split. Qed.

(** C1: [SET_LOADING(true)] is not the first action of every operation.
    [clearCart] never dispatches [SET_LOADING]: against every network its
    dispatched actions are none or the single [SET_CART] of the empty cart,
    and on an accepted request that [SET_CART] is the first action. With a
    line for the product, [removeFromCart] and [updateQuantity] (of a
    positive quantity) start with their [DELETE] and [PUT] request: nothing
    is dispatched before the network step, and [removeFromCart] dispatches
    nothing at all when the network is down. *)
Theorem mutations_skip_SET_LOADING :
  forall (net : Network) (cartId : string) (item : CartItem)
         (rest : list CartItem) (ld : bool) (err : option string) (q : positive),
    let state := {| items := item :: rest; loading := ld; error := err |} in
    let lineUrl := API_BASE_URL +:+ "/cart/" +:+ cartId
                     +:+ "/items/" +:+ pretty (item_id item) in
    (dispatched (trace net (clearCart cartId)) = []
     \/ dispatched (trace net (clearCart cartId)) = [SET_CART (val [])])
    /\ head (dispatched (trace (always Scenario.accepted) (clearCart cartId)))
       = Some (SET_CART (val []))
    /\ head (trace net (removeFromCart state cartId (productId item)))
       = Some (EvFetch {| url := lineUrl; method := DELETE; body := None |})
    /\ head (trace net
               (updateQuantity state cartId (productId item) (val (Z.pos q))))
       = Some (EvFetch {| url := lineUrl; method := PUT;
                          body := Some {| body_product_id := productId item;
                                          body_quantity := val (Z.pos q) |} |})
    /\ dispatched (trace (always Scenario.unreachable)
                     (removeFromCart state cartId (productId item))) = [].
Proof.
  intros net cartId item rest ld err q state lineUrl.
  split; [|split; [|split; [|split]]].
  - unfold trace, clearCart. cbn.
    destruct (net 0%nat _) as [message|[[|] j]]; cbn; auto.
  - reflexivity.
  - unfold trace, removeFromCart. subst state. simpl items.
    rewrite find_head_productId. reflexivity.
  - unfold trace, updateQuantity. subst state. simpl items.
    rewrite find_head_productId. reflexivity.
  - unfold trace, removeFromCart. subst state. simpl items.
    rewrite find_head_productId. reflexivity.
Qed.

(** C2: a failed [removeFromCart], [updateQuantity] or [clearCart] dispatches
    no [SET_ERROR]. With a line for the product, when the network is down
    or the backend refuses the request, each of the three sends its one
    request, logs, alerts the message and dispatches nothing: the store is
    left as it was, so an [error] that was [null] stays [null]. *)
Theorem mutation_failures_dispatch_nothing :
  forall (cartId : string) (item : CartItem) (rest : list CartItem) (ld : bool)
         (err : option string) (q : positive) (message : string)
         (j : JsonResult),
    let state := {| items := item :: rest; loading := ld; error := err |} in
    let pId := productId item in
    let down := always (FetchRejects message) in
    let refused := always (FetchResolves {| ok := false; json := j |}) in
    (dispatched (trace down (removeFromCart state cartId pId)) = []
     /\ dispatched (trace refused (removeFromCart state cartId pId)) = []
     /\ alerts (trace down (removeFromCart state cartId pId))
        = ["Error: " +:+ message]
     /\ alerts (trace refused (removeFromCart state cartId pId))
        = ["Error: Failed to remove from cart"]
     /\ state_after state (trace refused (removeFromCart state cartId pId))
        = state)
    /\ (dispatched (trace down (updateQuantity state cartId pId (val (Z.pos q))))
        = []
        /\ dispatched
             (trace refused (updateQuantity state cartId pId (val (Z.pos q))))
           = []
        /\ alerts (trace down (updateQuantity state cartId pId (val (Z.pos q))))
           = ["Error: " +:+ message]
        /\ length (alerts (trace refused
                     (updateQuantity state cartId pId (val (Z.pos q))))) = 1%nat)
    /\ (dispatched (trace down (clearCart cartId)) = []
        /\ dispatched (trace refused (clearCart cartId)) = []
        /\ alerts (trace down (clearCart cartId)) = ["Error: " +:+ message]
        /\ alerts (trace refused (clearCart cartId))
           = ["Error: Failed to clear cart"]
        /\ state_after state (trace refused (clearCart cartId)) = state)
    /\ error (state_after Scenario.cart
                (trace (always Scenario.refused)
                   (removeFromCart Scenario.cart Scenario.cartId 1))) = None
    /\ length (requests (trace refused (removeFromCart state cartId pId)))
       = 1%nat.
Proof.
  intros cartId item rest ld err q message j state pId down refused.
  assert (Hrm : forall net,
    trace net (removeFromCart state cartId pId)
    = (run net 0
         (try_catch
            (response ← fetch {| url := API_BASE_URL +:+ "/cart/" +:+ cartId
                                          +:+ "/items/" +:+ pretty (item_id item);
                                 method := DELETE; body := None |};
             if negb (ok response) then Throw "Failed to remove from cart"
             else loadCart cartId)
            (fun message =>
               console_error "Failed to remove from cart:" message;;
               alert ("Error: " +:+ message)))).1).
  { intros net. unfold trace, removeFromCart. subst state pId. simpl items.
    rewrite find_head_productId. reflexivity. }
  assert (Hup : forall net,
    trace net (updateQuantity state cartId pId (val (Z.pos q)))
    = (run net 0
         (try_catch
            (response ← fetch {| url := API_BASE_URL +:+ "/cart/" +:+ cartId
                                          +:+ "/items/" +:+ pretty (item_id item);
                                 method := PUT;
                                 body := Some {| body_product_id := pId;
                                                 body_quantity := val (Z.pos q) |} |};
             if negb (ok response) then
               errorData ← response_json response;
               Throw (or_string (detail errorData) "Failed to update quantity")
             else loadCart cartId)
            (fun message =>
               console_error "Failed to update quantity:" message;;
               alert ("Error: " +:+ message)))).1).
  { intros net. unfold trace, updateQuantity. subst state pId. simpl items.
    rewrite find_head_productId. reflexivity. }
  split; [|split; [|split; [|split]]].
  - rewrite !Hrm. repeat split.
  - rewrite !Hup. subst down refused.
    destruct j as [m|data]; repeat split.
  - repeat split.
  - reflexivity.
  - rewrite Hrm. reflexivity.
Qed.

(** * Further properties *)

(** ** CartStore: sequences of actions *)

(** An action that is not a [SET_CART] keeps the items. *)
Lemma cartReducer_items_step state action :
  (forall payload_items, action <> SET_CART payload_items) ->
  items (cartReducer state action) = items state.
Proof.
  intros Hno. destruct action as [p|b|m|t]; try reflexivity.
  destruct (Hno p). reflexivity.
Qed.

(** X1: only [SET_CART] changes the items: after any sequence of actions
    none of which is a [SET_CART] ([SET_LOADING], [SET_ERROR] and actions of
    unknown type, in any number and order) the items are those of the state
    the sequence started from. *)
Theorem cartReducer_items_frame :
  forall (actions : list Action) (state : CartState),
    Forall (fun action => forall payload_items, action <> SET_CART payload_items)
      actions ->
    items (fold_left cartReducer actions state) = items state.
Proof.
  intros actions state Hno. revert state.
  induction Hno as [|action actions Hstep _ IH]; intros state; simpl.
  - reflexivity.
  - rewrite IH. apply cartReducer_items_step. exact Hstep.
Qed.

Lemma cartReducer_items_frame_witness :
  items (fold_left cartReducer
           [SET_LOADING true; OTHER "RESET"; SET_ERROR "Failed to load cart"]
           Scenario.cart)
  = [Scenario.line].
Proof.
  refine (cartReducer_items_frame
            [SET_LOADING true; OTHER "RESET"; SET_ERROR "Failed to load cart"]
            Scenario.cart _).
  repeat constructor; intros p; discriminate.
Defined.

(** ** SyncEngine: [loadCart] *)

(** The two ways [loadCart] can run: it stores the converted rows, or it
    logs and stores the message of what went wrong. *)
Lemma loadCart_cases net n cartId :
  (exists rows,
      run net n (loadCart cartId)
      = ([EvDispatch (SET_LOADING true);
          EvFetch (Requests.load cartId);
          EvDispatch (SET_CART (val (map toFrontend rows)))],
         Fulfilled tt))
  \/ (exists message,
        run net n (loadCart cartId)
        = ([EvDispatch (SET_LOADING true);
            EvFetch (Requests.load cartId);
            EvConsoleError "Failed to load cart:" message;
            EvDispatch (SET_ERROR message)],
           Fulfilled tt)).
Proof.
  unfold loadCart. cbn.
  destruct (net n _) as [m|[[|] [m|[[| |rows] d]]]]; cbn;
    first [ left; eexists; reflexivity | right; eexists; reflexivity ].
Qed.

Lemma loadCart_fulfilled net n cartId :
  (run net n (loadCart cartId)).2 = Fulfilled tt.
Proof.
  destruct (loadCart_cases net n cartId) as [[rows H]|[m H]];
    rewrite H; reflexivity.
Qed.

(** [loadCart] stores the converted rows exactly when the answer to its
    [GET] is a success carrying rows, and these are the rows it stores. *)
Lemma loadCart_answer_cases net n cartId :
  (exists rows reason,
      net n (Requests.load cartId)
      = FetchResolves
          {| ok := true;
             json := JsonResolves {| json_items := val rows;
                                     detail := reason |} |}
      /\ run net n (loadCart cartId)
         = ([EvDispatch (SET_LOADING true);
             EvFetch (Requests.load cartId);
             EvDispatch (SET_CART (val (map toFrontend rows)))],
            Fulfilled tt))
  \/ (exists message,
        run net n (loadCart cartId)
        = ([EvDispatch (SET_LOADING true);
            EvFetch (Requests.load cartId);
            EvConsoleError "Failed to load cart:" message;
            EvDispatch (SET_ERROR message)],
           Fulfilled tt)).
Proof.
  unfold loadCart, Requests.load. cbn.
  destruct (net n _) as [m|[[|] [m|[[| |rows] d]]]] eqn:Hnet; cbn;
    first [ left; exists rows, d; split; reflexivity
          | right; eexists; reflexivity ].
Qed.

(** X2: whatever the network answers, [loadCart] sends exactly one request,
    the [GET] of the session's cart, alerts nothing, never rejects, and leaves
    the store not loading; then either the answer to that [GET] is a success
    carrying rows, there is no error and the items are these rows converted,
    or the error is set and the items are the ones the store had. *)
Theorem loadCart_settles :
  forall (net : Network) (cartId : string) (store : CartState),
    let after := state_after store (trace net (loadCart cartId)) in
    (run net 0 (loadCart cartId)).2 = Fulfilled tt
    /\ requests (trace net (loadCart cartId)) = [Requests.load cartId]
    /\ alerts (trace net (loadCart cartId)) = []
    /\ loading after = false
    /\ ((exists rows reason,
            net 0%nat (Requests.load cartId)
            = FetchResolves
                {| ok := true;
                   json := JsonResolves {| json_items := val rows;
                                           detail := reason |} |}
            /\ error after = None
            /\ items after = map toFrontend rows)
        \/ ((exists message, error after = Some message)
            /\ items after = items store)).
Proof.
  intros net cartId store after. subst after. unfold trace.
  destruct (loadCart_answer_cases net 0 cartId)
    as [(rows & reason & Hnet & H)|[m H]]; rewrite H.
  - repeat split. left. exists rows, reason. repeat split. exact Hnet.
  - repeat split. right. split; [exists m|]; reflexivity.
Qed.

(** X3: when the backend answers the [GET] with a success carrying the rows
    of the cart, [loadCart] dispatches [SET_LOADING(true)] and then one
    [SET_CART] with the rows converted in order, and the store becomes these
    items, not loading and without error, whatever it held before. *)
Theorem loadCart_success :
  forall (net : Network) (cartId : string) (store : CartState)
         (rows : list BackendItem) (reason : js string),
    net 0%nat (Requests.load cartId)
    = FetchResolves
        {| ok := true;
           json := JsonResolves {| json_items := val rows; detail := reason |} |} ->
    dispatched (trace net (loadCart cartId))
    = [SET_LOADING true; SET_CART (val (map toFrontend rows))]
    /\ state_after store (trace net (loadCart cartId))
       = {| items := map toFrontend rows; loading := false; error := None |}
    /\ map productId (items (state_after store (trace net (loadCart cartId))))
       = map product_id rows
    /\ map quantity (items (state_after store (trace net (loadCart cartId))))
       = map row_quantity rows.
Proof.
  intros net cartId store rows reason Hnet.
  assert (Htr : trace net (loadCart cartId)
                = [EvDispatch (SET_LOADING true);
                   EvFetch (Requests.load cartId);
                   EvDispatch (SET_CART (val (map toFrontend rows)))]).
  { unfold trace, loadCart. cbn. unfold Requests.load in Hnet.
    rewrite Hnet. reflexivity. }
  rewrite Htr. cbn. rewrite !map_map. repeat split.
Qed.

Lemma loadCart_success_witness :
  state_after Scenario.cart
    (trace (always Scenario.accepted) (loadCart Scenario.cartId))
  = {| items := []; loading := false; error := None |}.
Proof.
  refine (proj1 (proj2 (loadCart_success (always Scenario.accepted)
                          Scenario.cartId Scenario.cart [] undefined _))).
  reflexivity.
Defined.

(** X4: a success answer that [loadCart] cannot use (its JSON does not parse,
    or it has no array of items) is a failure like any other: the error is
    set, the items stay as they were and the store is not loading. *)
Theorem loadCart_unusable_answer :
  forall (net : Network) (cartId : string) (store : CartState) (r : Response),
    net 0%nat (Requests.load cartId) = FetchResolves r ->
    ok r = true ->
    match json r with
    | JsonRejects _ => True
    | JsonResolves data =>
        match json_items data with val _ => False | _ => True end
    end ->
    let after := state_after store (trace net (loadCart cartId)) in
    (exists message, error after = Some message)
    /\ items after = items store
    /\ loading after = false.
Proof.
  intros net cartId store r Hnet Hok Hbad after. subst after.
  unfold trace, loadCart. cbn. unfold Requests.load in Hnet. rewrite Hnet.
  destruct r as [okr j]. simpl in Hok, Hbad. subst okr.
  destruct j as [m|[[| |rows] d]]; cbn in *; try contradiction;
    (split; [eexists; reflexivity | split; reflexivity]).
Qed.

Lemma loadCart_unusable_answer_witness :
  error (state_after Scenario.cart
           (trace (always (FetchResolves
                             {| ok := true;
                                json := JsonRejects "Unexpected end of JSON input" |}))
              (loadCart Scenario.cartId)))
  = Some "Unexpected end of JSON input"
  /\ items (state_after Scenario.cart
              (trace (always (FetchResolves
                                {| ok := true;
                                   json := JsonRejects "Unexpected end of JSON input" |}))
                 (loadCart Scenario.cartId)))
     = [Scenario.line].
Proof.
  pose proof (loadCart_unusable_answer
                (always (FetchResolves
                           {| ok := true;
                              json := JsonRejects "Unexpected end of JSON input" |}))
                Scenario.cartId Scenario.cart _ eq_refl eq_refl I) as [_ [Hitems _]].
  split; [reflexivity | exact Hitems].
Defined.

(** ** SyncEngine: the shapes of a run *)

(** A [catch] around the always fulfilled [loadCart] is never entered. *)
Lemma run_try_catch_loadCart net n cartId handler :
  run net n (try_catch (loadCart cartId) handler) = run net n (loadCart cartId).
Proof.
  apply (run_try_catch_fulfilled net _ _ n tt). apply loadCart_fulfilled.
Qed.

(** [addToCart] fails on its [POST] (one request, [SET_ERROR], alert) or
    goes on as [loadCart]. *)
Lemma addToCart_cases net n cartId product quantity :
  let request :=
    Requests.add cartId (prod_id product) (default_param quantity (val 1)) in
  (exists reason,
      run net n (addToCart cartId product quantity)
      = ([EvDispatch (SET_LOADING true);
          EvFetch request;
          EvConsoleError "Failed to add to cart:" reason;
          EvDispatch (SET_ERROR reason);
          EvAlert ("Error: " +:+ reason)],
         Fulfilled tt))
  \/ run net n (addToCart cartId product quantity)
     = (EvDispatch (SET_LOADING true) :: EvFetch request
          :: (run net (S n) (loadCart cartId)).1,
        Fulfilled tt).
Proof.
  intros request. subst request. unfold addToCart, Requests.add.
  cbn -[loadCart].
  destruct (net n _) as [m|[[|] j]]; cbn -[loadCart].
  - left. eexists. reflexivity.
  - right. rewrite run_try_catch_loadCart, loadCart_fulfilled. reflexivity.
  - left. destruct j as [m|data]; cbn; eexists; reflexivity.
Qed.

(** [clearCart] fails on its [DELETE] (log and alert) or stores the empty
    cart. *)
Lemma clearCart_cases net n cartId :
  (exists reason,
      run net n (clearCart cartId)
      = ([EvFetch (Requests.clear cartId);
          EvConsoleError "Failed to clear cart:" reason;
          EvAlert ("Error: " +:+ reason)],
         Fulfilled tt))
  \/ run net n (clearCart cartId)
     = ([EvFetch (Requests.clear cartId); EvDispatch (SET_CART (val []))],
        Fulfilled tt).
Proof.
  unfold clearCart, Requests.clear. cbn.
  destruct (net n _) as [m|[[|] j]]; cbn.
  - left. eexists. reflexivity.
  - right. reflexivity.
  - left. eexists. reflexivity.
Qed.

(** [removeFromCart] does nothing, or fails on the [DELETE] of a line of the
    product (log and alert), or goes on as [loadCart]. *)
Lemma removeFromCart_cases net n state cartId pId :
  run net n (removeFromCart state cartId pId) = ([], Fulfilled tt)
  \/ (exists item reason,
        run net n (removeFromCart state cartId pId)
        = ([EvFetch (Requests.remove cartId (item_id item));
            EvConsoleError "Failed to remove from cart:" reason;
            EvAlert ("Error: " +:+ reason)],
           Fulfilled tt))
  \/ (exists item,
        run net n (removeFromCart state cartId pId)
        = (EvFetch (Requests.remove cartId (item_id item))
             :: (run net (S n) (loadCart cartId)).1,
           Fulfilled tt)).
Proof.
  unfold removeFromCart, Requests.remove.
  destruct (find _ (items state)) as [item|]; [|left; reflexivity].
  right. cbn -[loadCart].
  destruct (net n _) as [m|[[|] j]]; cbn -[loadCart].
  - left. exists item. eexists. reflexivity.
  - right. exists item.
    rewrite run_try_catch_loadCart, loadCart_fulfilled. reflexivity.
  - left. exists item. eexists. reflexivity.
Qed.

(** [updateQuantity] does nothing, or runs as [removeFromCart], or fails on
    the [PUT] of a line of the product (log and alert), or goes on as
    [loadCart]. *)
Lemma updateQuantity_cases net n state cartId pId quantity :
  run net n (updateQuantity state cartId pId quantity) = ([], Fulfilled tt)
  \/ run net n (updateQuantity state cartId pId quantity)
     = run net n (removeFromCart state cartId pId)
  \/ (exists item reason,
        run net n (updateQuantity state cartId pId quantity)
        = ([EvFetch (Requests.update cartId (item_id item) pId quantity);
            EvConsoleError "Failed to update quantity:" reason;
            EvAlert ("Error: " +:+ reason)],
           Fulfilled tt))
  \/ (exists item,
        run net n (updateQuantity state cartId pId quantity)
        = (EvFetch (Requests.update cartId (item_id item) pId quantity)
             :: (run net (S n) (loadCart cartId)).1,
           Fulfilled tt)).
Proof.
  destruct (le quantity (val 0)) eqn:Hle.
  { right. left. apply updateQuantity_le_0. exact Hle. }
  unfold updateQuantity, Requests.update.
  destruct (find _ (items state)) as [item|]; [|left; reflexivity].
  right. right. rewrite Hle. cbn -[loadCart].
  destruct (net n _) as [m|[[|] j]]; cbn -[loadCart].
  - left. exists item. eexists. reflexivity.
  - right. exists item.
    rewrite run_try_catch_loadCart, loadCart_fulfilled. reflexivity.
  - left. exists item. destruct j as [m|data]; cbn; eexists; reflexivity.
Qed.

(** ** SyncEngine: what holds against every network *)

Lemma loadCart_requests net n cartId :
  requests (run net n (loadCart cartId)).1 = [Requests.load cartId].
Proof.
  destruct (loadCart_cases net n cartId) as [[rows H]|[m H]];
    rewrite H; reflexivity.
Qed.

Lemma loadCart_alerts net n cartId :
  alerts (run net n (loadCart cartId)).1 = [].
Proof.
  destruct (loadCart_cases net n cartId) as [[rows H]|[m H]];
    rewrite H; reflexivity.
Qed.

Lemma loadCart_not_loading net n cartId store :
  loading (state_after store (run net n (loadCart cartId)).1) = false.
Proof.
  destruct (loadCart_cases net n cartId) as [[rows H]|[m H]];
    rewrite H; reflexivity.
Qed.

(** X5: no operation ever rejects: against every network, from every state
    and for all arguments, the promise of each of the five operations is
    fulfilled (every failure is caught inside the operation). *)
Theorem operations_always_fulfilled :
  forall (net : Network) (n : nat) (state : CartState) (cartId : string)
         (product : Product) (pId : Z) (quantity : js Z),
    (run net n (loadCart cartId)).2 = Fulfilled tt
    /\ (run net n (addToCart cartId product quantity)).2 = Fulfilled tt
    /\ (run net n (removeFromCart state cartId pId)).2 = Fulfilled tt
    /\ (run net n (updateQuantity state cartId pId quantity)).2 = Fulfilled tt
    /\ (run net n (clearCart cartId)).2 = Fulfilled tt.
Proof.
  intros net n state cartId product pId quantity.
  split; [apply loadCart_fulfilled|].
  split.
  { destruct (addToCart_cases net n cartId product quantity) as [[r H]|H];
      rewrite H; reflexivity. }
  split; [apply removeFromCart_fulfilled|].
  split.
  { destruct (updateQuantity_cases net n state cartId pId quantity)
      as [H|[H|[(item & r & H)|(item & H)]]]; rewrite H;
      first [reflexivity | apply removeFromCart_fulfilled]. }
  destruct (clearCart_cases net n cartId) as [[r H]|H]; rewrite H; reflexivity.
Qed.

Lemma removeFromCart_requests net n state cartId pId :
  (length (requests (run net n (removeFromCart state cartId pId)).1) <= 2)%nat
  /\ forall request,
      requests (run net n (removeFromCart state cartId pId)).1 !! 1%nat
      = Some request ->
      request = Requests.load cartId.
Proof.
  destruct (removeFromCart_cases net n state cartId pId)
    as [H|[(item & r & H)|(item & H)]]; rewrite H.
  - split; [simpl; lia | intros rq; discriminate].
  - split; [simpl; lia | intros rq; discriminate].
  - cbn [fst].
    change (requests (EvFetch ?r :: ?l)) with (r :: requests l).
    rewrite loadCart_requests.
    split; [simpl; lia | intros rq [= <-]; reflexivity].
Qed.

(** X6: no operation retries or sends anything besides its own request and
    the reload: against every network, [loadCart] and [clearCart] send
    exactly one request, [addToCart] one or two, [removeFromCart] and
    [updateQuantity] at most two, and a second request is always the [GET]
    that reloads the session's cart. *)
Theorem operations_request_bound :
  forall (net : Network) (state : CartState) (cartId : string)
         (product : Product) (pId : Z) (quantity : js Z),
    let second_is_reload (m : Async unit) :=
      forall request,
        requests (trace net m) !! 1%nat = Some request ->
        request = Requests.load cartId in
    length (requests (trace net (loadCart cartId))) = 1%nat
    /\ length (requests (trace net (clearCart cartId))) = 1%nat
    /\ (1 <= length (requests (trace net (addToCart cartId product quantity)))
        <= 2)%nat
    /\ (length (requests (trace net (removeFromCart state cartId pId))) <= 2)%nat
    /\ (length (requests (trace net (updateQuantity state cartId pId quantity)))
        <= 2)%nat
    /\ second_is_reload (addToCart cartId product quantity)
    /\ second_is_reload (removeFromCart state cartId pId)
    /\ second_is_reload (updateQuantity state cartId pId quantity).
Proof.
  intros net state cartId product pId quantity second_is_reload.
  subst second_is_reload. unfold trace.
  pose proof (removeFromCart_requests net 0 state cartId pId) as [Hrm1 Hrm2].
  assert (Hadd :
    (1 <= length (requests (run net 0 (addToCart cartId product quantity)).1)
     <= 2)%nat
    /\ forall request,
        requests (run net 0 (addToCart cartId product quantity)).1 !! 1%nat
        = Some request -> request = Requests.load cartId).
  { destruct (addToCart_cases net 0 cartId product quantity) as [[r H]|H];
      rewrite H.
    - split; [simpl; lia | intros rq; discriminate].
    - cbn [fst].
      change (requests (EvDispatch ?a :: EvFetch ?r :: ?l))
        with (r :: requests l).
      rewrite loadCart_requests.
      split; [simpl; lia | intros rq [= <-]; reflexivity]. }
  assert (Hup :
    (length (requests (run net 0 (updateQuantity state cartId pId quantity)).1)
     <= 2)%nat
    /\ forall request,
        requests (run net 0 (updateQuantity state cartId pId quantity)).1 !! 1%nat
        = Some request -> request = Requests.load cartId).
  { destruct (updateQuantity_cases net 0 state cartId pId quantity)
      as [H|[H|[(item & r & H)|(item & H)]]]; rewrite H.
    - split; [simpl; lia | intros rq; discriminate].
    - split; assumption.
    - split; [simpl; lia | intros rq; discriminate].
    - cbn [fst].
      change (requests (EvFetch ?r :: ?l)) with (r :: requests l).
      rewrite loadCart_requests.
      split; [simpl; lia | intros rq [= <-]; reflexivity]. }
  destruct Hadd as [Hadd1 Hadd2]. destruct Hup as [Hup1 Hup2].
  repeat split; try assumption; try lia.
  - rewrite loadCart_requests. reflexivity.
  - destruct (clearCart_cases net 0 cartId) as [[r H]|H]; rewrite H;
      reflexivity.
Qed.

(** X7: no operation leaves the loading flag set: against every network,
    after [loadCart] or [addToCart] the store is not loading, whatever it
    was before, and after [removeFromCart], [updateQuantity] or [clearCart]
    it is not loading if it was not loading before. *)
Theorem operations_leave_not_loading :
  forall (net : Network) (store state : CartState) (cartId : string)
         (product : Product) (pId : Z) (quantity : js Z),
    loading (state_after store (trace net (loadCart cartId))) = false
    /\ loading (state_after store (trace net (addToCart cartId product quantity)))
       = false
    /\ (loading store = false ->
        loading (state_after store (trace net (removeFromCart state cartId pId)))
        = false
        /\ loading (state_after store
                      (trace net (updateQuantity state cartId pId quantity)))
           = false
        /\ loading (state_after store (trace net (clearCart cartId))) = false).
Proof.
  intros net store state cartId product pId quantity. unfold trace.
  assert (Hrm : loading store = false ->
    loading (state_after store (run net 0 (removeFromCart state cartId pId)).1)
    = false).
  { intros Hs.
    destruct (removeFromCart_cases net 0 state cartId pId)
      as [H|[(item & r & H)|(item & H)]]; rewrite H; try exact Hs.
    cbn [fst]. apply (loadCart_not_loading net 1 cartId store). }
  split; [apply loadCart_not_loading|].
  split.
  { destruct (addToCart_cases net 0 cartId product quantity) as [[r H]|H];
      rewrite H; [reflexivity|].
    cbn [fst].
    apply (loadCart_not_loading net 1 cartId
             (cartReducer store (SET_LOADING true))). }
  intros Hs. split; [exact (Hrm Hs)|]. split.
  - destruct (updateQuantity_cases net 0 state cartId pId quantity)
      as [H|[H|[(item & r & H)|(item & H)]]]; rewrite H;
      try exact Hs; try exact (Hrm Hs).
    cbn [fst]. apply (loadCart_not_loading net 1 cartId store).
  - destruct (clearCart_cases net 0 cartId) as [[r H]|H]; rewrite H;
      [exact Hs | reflexivity].
Qed.

Lemma operations_leave_not_loading_witness :
  loading (state_after Scenario.cart
             (trace (always Scenario.refused)
                (removeFromCart Scenario.cart Scenario.cartId 1))) = false
  /\ loading (state_after Scenario.cart
                (trace (always Scenario.refused)
                   (updateQuantity Scenario.cart Scenario.cartId 1 (val 3))))
     = false
  /\ loading (state_after Scenario.cart
                (trace (always Scenario.refused) (clearCart Scenario.cartId)))
     = false.
Proof.
  refine (proj2 (proj2 (operations_leave_not_loading
                          (always Scenario.refused) Scenario.cart Scenario.cart
                          Scenario.cartId Scenario.lamp 1 (val 3))) _).
  reflexivity.
Defined.

(** ** SyncEngine: the session in every request *)

Lemma prefix_app_l (a x y : string) :
  String.prefix (a +:+ x) (a +:+ y) = String.prefix x y.
Proof.
  induction a as [|c a IH]; simpl; [reflexivity|].
  destruct (Ascii.ascii_dec c c) as [_|Hne]; [exact IH | congruence].
Qed.

Lemma prefix_empty (t : string) : String.prefix "" t = true.
Proof. destruct t; reflexivity. Qed.

Lemma prefix_append (s t : string) : String.prefix s (s +:+ t) = true.
Proof.
  induction s as [|c s IH]; simpl; [apply prefix_empty|].
  destruct (Ascii.ascii_dec c c) as [_|Hne]; [exact IH | congruence].
Qed.

Lemma prefix_refl (s : string) : String.prefix s s = true.
Proof.
  induction s as [|c s IH]; simpl; [reflexivity|].
  destruct (Ascii.ascii_dec c c) as [_|Hne]; [exact IH | congruence].
Qed.

Lemma targets_requests cartId lineId product_id quantity :
  Requests.targets cartId (Requests.load cartId) = true
  /\ Requests.targets cartId (Requests.add cartId product_id quantity) = true
  /\ Requests.targets cartId (Requests.remove cartId lineId) = true
  /\ Requests.targets cartId (Requests.update cartId lineId product_id quantity)
     = true
  /\ Requests.targets cartId (Requests.clear cartId) = true.
Proof.
  unfold Requests.targets; cbn [url Requests.load Requests.add Requests.remove
                                  Requests.update Requests.clear].
  rewrite !prefix_app_l, !prefix_append, prefix_refl. repeat split.
Qed.

Lemma loadCart_targets net n cartId :
  Forall (fun request => Requests.targets cartId request = true)
    (requests (run net n (loadCart cartId)).1).
Proof.
  rewrite loadCart_requests. repeat constructor.
  apply (targets_requests cartId 0 0 undefined).
Qed.

Lemma removeFromCart_targets net n state cartId pId :
  Forall (fun request => Requests.targets cartId request = true)
    (requests (run net n (removeFromCart state cartId pId)).1).
Proof.
  destruct (removeFromCart_cases net n state cartId pId)
    as [H|[(item & r & H)|(item & H)]]; rewrite H; cbn [fst].
  - constructor.
  - repeat constructor. apply (targets_requests cartId (item_id item) 0 undefined).
  - change (requests (EvFetch ?r :: ?l)) with (r :: requests l).
    constructor; [|apply loadCart_targets].
    apply (targets_requests cartId (item_id item) 0 undefined).
Qed.

(** X8: every request of every operation addresses the cart of the
    session: against every network, the URL of each request sent by any of
    the five operations starts with the base URL, ["/cart/"] and the session
    identifier. *)
Theorem requests_target_session_cart :
  forall (net : Network) (state : CartState) (cartId : string)
         (product : Product) (pId : Z) (quantity : js Z),
    let all_target (m : Async unit) :=
      Forall (fun request => Requests.targets cartId request = true)
        (requests (trace net m)) in
    all_target (loadCart cartId)
    /\ all_target (addToCart cartId product quantity)
    /\ all_target (removeFromCart state cartId pId)
    /\ all_target (updateQuantity state cartId pId quantity)
    /\ all_target (clearCart cartId).
Proof.
  intros net state cartId product pId quantity all_target.
  subst all_target. unfold trace.
  split; [apply loadCart_targets|].
  split.
  { destruct (addToCart_cases net 0 cartId product quantity) as [[r H]|H];
      rewrite H; cbn [fst].
    - repeat constructor.
      apply (targets_requests cartId 0 (prod_id product)
               (default_param quantity (val 1))).
    - change (requests (EvDispatch ?a :: EvFetch ?r :: ?l))
        with (r :: requests l).
      constructor; [|apply loadCart_targets].
      apply (targets_requests cartId 0 (prod_id product)
               (default_param quantity (val 1))). }
  split; [apply removeFromCart_targets|].
  split.
  { destruct (updateQuantity_cases net 0 state cartId pId quantity)
      as [H|[H|[(item & r & H)|(item & H)]]]; rewrite H; cbn [fst].
    - constructor.
    - apply removeFromCart_targets.
    - repeat constructor.
      apply (targets_requests cartId (item_id item) pId quantity).
    - change (requests (EvFetch ?r :: ?l)) with (r :: requests l).
      constructor; [|apply loadCart_targets].
      apply (targets_requests cartId (item_id item) pId quantity). }
  destruct (clearCart_cases net 0 cartId) as [[r H]|H]; rewrite H; cbn [fst];
    repeat constructor; apply (targets_requests cartId 0 0 undefined).
Qed.

(** ** SyncEngine: each operation on success and on failure *)

(** [find] returns the first line of the product. *)
Lemma find_first_productId (pre post : list CartItem) (item : CartItem) :
  Forall (fun other => productId other <> productId item) pre ->
  find (fun i => bool_decide (productId i = productId item))
    (pre ++ item :: post)
  = Some item.
Proof.
  unfold find. induction 1 as [|other pre Hne _ IH]; simpl.
  - rewrite bool_decide_eq_true_2 by reflexivity. reflexivity.
  - rewrite bool_decide_eq_false_2 by exact Hne. exact IH.
Qed.

(** X9: when its [POST] fails, [addToCart] does not reload: if the network
    is down, or the backend refuses, the single request sent is the [POST];
    the store keeps its items, is not loading, and its error is the reason,
    which is also alerted. The reason is the message of the network failure
    or of the unreadable answer, else the [detail] the backend gave, and
    ["Failed to add to cart"] when the detail is missing, [null] or empty. *)
Theorem addToCart_failure_no_reload :
  forall (net : Network) (cartId : string) (product : Product)
         (quantity : js Z) (store : CartState) (reason : string),
    let request :=
      Requests.add cartId (prod_id product) (default_param quantity (val 1)) in
    match net 0%nat request with
    | FetchRejects message => reason = message
    | FetchResolves r =>
        ok r = false
        /\ match json r with
           | JsonRejects message => reason = message
           | JsonResolves data =>
               reason = match detail data with
                        | val "" => "Failed to add to cart"
                        | val given => given
                        | _ => "Failed to add to cart"
                        end
           end
    end ->
    requests (trace net (addToCart cartId product quantity)) = [request]
    /\ dispatched (trace net (addToCart cartId product quantity))
       = [SET_LOADING true; SET_ERROR reason]
    /\ alerts (trace net (addToCart cartId product quantity))
       = ["Error: " +:+ reason]
    /\ state_after store (trace net (addToCart cartId product quantity))
       = {| items := items store; loading := false; error := Some reason |}.
Proof.
  intros net cartId product quantity store reason request Hnet.
  assert (Htr : trace net (addToCart cartId product quantity)
                = [EvDispatch (SET_LOADING true);
                   EvFetch request;
                   EvConsoleError "Failed to add to cart:" reason;
                   EvDispatch (SET_ERROR reason);
                   EvAlert ("Error: " +:+ reason)]).
  { subst request. unfold trace, addToCart, Requests.add in *.
    cbn -[loadCart].
    destruct (net 0%nat _) as [m|[okr j]].
    - subst reason. reflexivity.
    - destruct Hnet as [Hok Hj]. simpl in Hok, Hj. subst okr.
      destruct j as [m|[its [| |given]]]; cbn in *; subst reason;
        try reflexivity.
      destruct given; reflexivity. }
  rewrite Htr. repeat split.
Qed.

Lemma addToCart_failure_no_reload_witness :
  requests (trace (always Scenario.refused)
              (addToCart Scenario.cartId Scenario.lamp undefined))
  = [Requests.add Scenario.cartId 1 (val 1)]
  /\ state_after Scenario.cart
       (trace (always Scenario.refused)
          (addToCart Scenario.cartId Scenario.lamp undefined))
     = {| items := [Scenario.line]; loading := false;
          error := Some "Insufficient stock" |}.
Proof.
  pose proof (addToCart_failure_no_reload (always Scenario.refused)
                Scenario.cartId Scenario.lamp undefined Scenario.cart
                "Insufficient stock" (conj eq_refl eq_refl))
    as (Hrq & _ & _ & Hst).
  split; [exact Hrq | exact Hst].
Defined.

(** X10: when its [POST] is accepted, [addToCart] goes on exactly as
    [loadCart]: the request carries the product's id and the quantity (1
    when omitted), the rest of the run is the run of [loadCart] on the next
    answer, nothing is alerted even if that reload fails, and the store ends
    as that [loadCart] alone would leave it. *)
Theorem addToCart_success_reloads :
  forall (net : Network) (cartId : string) (product : Product)
         (quantity : js Z) (store : CartState) (r : Response),
    let request :=
      Requests.add cartId (prod_id product) (default_param quantity (val 1)) in
    net 0%nat request = FetchResolves r ->
    ok r = true ->
    trace net (addToCart cartId product quantity)
    = EvDispatch (SET_LOADING true) :: EvFetch request
        :: (run net 1 (loadCart cartId)).1
    /\ requests (trace net (addToCart cartId product quantity))
       = [request; Requests.load cartId]
    /\ alerts (trace net (addToCart cartId product quantity)) = []
    /\ state_after store (trace net (addToCart cartId product quantity))
       = state_after store (run net 1 (loadCart cartId)).1.
Proof.
  intros net cartId product quantity store r request Hnet Hok.
  assert (Htr : trace net (addToCart cartId product quantity)
                = EvDispatch (SET_LOADING true) :: EvFetch request
                    :: (run net 1 (loadCart cartId)).1).
  { subst request. unfold trace, addToCart, Requests.add in *.
    cbn -[loadCart]. rewrite Hnet. destruct r as [okr j]. simpl in Hok.
    subst okr. cbn -[loadCart]. rewrite run_try_catch_loadCart. reflexivity. }
  rewrite Htr. split; [reflexivity|].
  change (requests (EvDispatch ?a :: EvFetch ?q :: ?l)) with (q :: requests l).
  change (alerts (EvDispatch ?a :: EvFetch ?q :: ?l)) with (alerts l).
  rewrite loadCart_requests, loadCart_alerts.
  split; [reflexivity|]. split; [reflexivity|].
  destruct (loadCart_cases net 1 cartId) as [[rows H]|[m H]]; rewrite H;
    reflexivity.
Qed.

Lemma addToCart_success_reloads_witness :
  requests (trace (always Scenario.accepted)
              (addToCart Scenario.cartId Scenario.lamp undefined))
  = [Requests.add Scenario.cartId 1 (val 1); Requests.load Scenario.cartId].
Proof.
  refine (proj1 (proj2 (addToCart_success_reloads (always Scenario.accepted)
                          Scenario.cartId Scenario.lamp undefined
                          Scenario.cart _ _ _))); reflexivity.
Defined.

(** X11: [removeFromCart] deletes the first line of the product, addressed
    by the line's own id, and then reloads: when the state holds lines of
    other products, then a line of the product (whatever follows), and the
    backend accepts the [DELETE] of that line, the run is this [DELETE]
    followed by the run of [loadCart] on the next answer, and the store ends
    as that [loadCart] leaves it. *)
Theorem removeFromCart_success_reloads :
  forall (net : Network) (state store : CartState) (cartId : string)
         (pre post : list CartItem) (item : CartItem) (r : Response),
    items state = (pre ++ item :: post)%list ->
    Forall (fun other => productId other <> productId item) pre ->
    net 0%nat (Requests.remove cartId (item_id item)) = FetchResolves r ->
    ok r = true ->
    trace net (removeFromCart state cartId (productId item))
    = EvFetch (Requests.remove cartId (item_id item))
        :: (run net 1 (loadCart cartId)).1
    /\ requests (trace net (removeFromCart state cartId (productId item)))
       = [Requests.remove cartId (item_id item); Requests.load cartId]
    /\ state_after store (trace net (removeFromCart state cartId (productId item)))
       = state_after store (run net 1 (loadCart cartId)).1.
Proof.
  intros net state store cartId pre post item r Hitems Hpre Hnet Hok.
  assert (Htr : trace net (removeFromCart state cartId (productId item))
                = EvFetch (Requests.remove cartId (item_id item))
                    :: (run net 1 (loadCart cartId)).1).
  { unfold trace, removeFromCart, Requests.remove in *.
    rewrite Hitems, (find_first_productId pre post item Hpre).
    cbn -[loadCart]. rewrite Hnet. destruct r as [okr j]. simpl in Hok.
    subst okr. cbn -[loadCart]. rewrite run_try_catch_loadCart. reflexivity. }
  rewrite Htr. split; [reflexivity|].
  change (requests (EvFetch ?q :: ?l)) with (q :: requests l).
  rewrite loadCart_requests. split; reflexivity.
Qed.

Lemma removeFromCart_success_reloads_witness :
  requests (trace (always Scenario.accepted)
              (removeFromCart Scenario.cart Scenario.cartId 1))
  = [Requests.remove Scenario.cartId 7; Requests.load Scenario.cartId]
  /\ state_after Scenario.cart
       (trace (always Scenario.accepted)
          (removeFromCart Scenario.cart Scenario.cartId 1))
     = state_after Scenario.cart
         (run (always Scenario.accepted) 1 (loadCart Scenario.cartId)).1.
Proof.
  refine (proj2 (removeFromCart_success_reloads (always Scenario.accepted)
                   Scenario.cart Scenario.cart Scenario.cartId [] []
                   Scenario.line _ _ _ _ _)); try reflexivity.
  constructor.
Defined.

(** X12: [updateQuantity] for a product id that matches no item of the
    current state does nothing, whatever the quantity (positive, zero,
    negative, [null] or omitted): no request, no dispatched action, no
    message, and the store is left as it is. *)
Theorem updateQuantity_absent_noop :
  forall (net : Network) (n : nat) (state : CartState) (cartId : string)
         (pId : Z) (quantity : js Z),
    Forall (fun item => productId item <> pId) (items state) ->
    updateQuantity state cartId pId quantity = Return tt
    /\ run net n (updateQuantity state cartId pId quantity) = ([], Fulfilled tt)
    /\ forall store,
        state_after store (trace net (updateQuantity state cartId pId quantity))
        = store.
Proof.
  intros net n state cartId pId quantity Habs.
  assert (Hret : updateQuantity state cartId pId quantity = Return tt).
  { unfold updateQuantity. rewrite (find_none_productId _ _ Habs). reflexivity. }
  unfold trace. rewrite Hret. repeat split.
Qed.

Lemma updateQuantity_absent_noop_witness :
  run (always Scenario.accepted) 0
    (updateQuantity Scenario.cart Scenario.cartId 2 (val 3))
  = ([], Fulfilled tt).
Proof.
  refine (proj1 (proj2 (updateQuantity_absent_noop
                          (always Scenario.accepted) 0 Scenario.cart
                          Scenario.cartId 2 (val 3) _))).
  simpl. constructor; [simpl; lia | constructor].
Defined.

(** X13: [updateQuantity] with a positive quantity updates the first line of
    the product and then reloads: the [PUT] addresses the line by its own id
    and carries the product id and the quantity; when the backend accepts
    it, the rest of the run is the run of [loadCart] on the next answer and
    the store ends as that [loadCart] leaves it. *)
Theorem updateQuantity_success_reloads :
  forall (net : Network) (state store : CartState) (cartId : string)
         (pre post : list CartItem) (item : CartItem) (q : Z) (r : Response),
    let request :=
      Requests.update cartId (item_id item) (productId item) (val q) in
    items state = (pre ++ item :: post)%list ->
    Forall (fun other => productId other <> productId item) pre ->
    0 < q ->
    net 0%nat request = FetchResolves r ->
    ok r = true ->
    trace net (updateQuantity state cartId (productId item) (val q))
    = EvFetch request :: (run net 1 (loadCart cartId)).1
    /\ requests (trace net (updateQuantity state cartId (productId item) (val q)))
       = [request; Requests.load cartId]
    /\ state_after store
         (trace net (updateQuantity state cartId (productId item) (val q)))
       = state_after store (run net 1 (loadCart cartId)).1.
Proof.
  intros net state store cartId pre post item q r request
    Hitems Hpre Hq Hnet Hok.
  assert (Hle : le (val q) (val 0) = false).
  { unfold le, is_less_than. simpl.
    destruct (0 <? q) eqn:Hlt; [reflexivity|]. apply Z.ltb_ge in Hlt. lia. }
  assert (Htr : trace net (updateQuantity state cartId (productId item) (val q))
                = EvFetch request :: (run net 1 (loadCart cartId)).1).
  { subst request. unfold trace, updateQuantity, Requests.update in *.
    rewrite Hitems, (find_first_productId pre post item Hpre), Hle.
    cbn -[loadCart]. rewrite Hnet. destruct r as [okr j]. simpl in Hok.
    subst okr. cbn -[loadCart]. rewrite run_try_catch_loadCart. reflexivity. }
  rewrite Htr. split; [reflexivity|].
  change (requests (EvFetch ?x :: ?l)) with (x :: requests l).
  rewrite loadCart_requests. split; reflexivity.
Qed.

Lemma updateQuantity_success_reloads_witness :
  requests (trace (always Scenario.accepted)
              (updateQuantity Scenario.cart Scenario.cartId 1 (val 3)))
  = [Requests.update Scenario.cartId 7 1 (val 3);
     Requests.load Scenario.cartId].
Proof.
  refine (proj1 (proj2 (updateQuantity_success_reloads
                          (always Scenario.accepted) Scenario.cart Scenario.cart
                          Scenario.cartId [] [] Scenario.line 3 _ _ _ _ _ _)));
    try reflexivity.
  constructor.
Defined.

(** X14: when the backend accepts its [DELETE], [clearCart] sends nothing
    else (no reload) and sets the store to the empty cart, not loading and
    without error, whatever the store held, an earlier error included; the
    body of the answer is never read. *)
Theorem clearCart_success_resets :
  forall (net : Network) (cartId : string) (store : CartState) (r : Response),
    net 0%nat (Requests.clear cartId) = FetchResolves r ->
    ok r = true ->
    trace net (clearCart cartId)
    = [EvFetch (Requests.clear cartId); EvDispatch (SET_CART (val []))]
    /\ state_after store (trace net (clearCart cartId)) = initialState.
Proof.
  intros net cartId store r Hnet Hok.
  assert (Htr : trace net (clearCart cartId)
                = [EvFetch (Requests.clear cartId);
                   EvDispatch (SET_CART (val []))]).
  { unfold trace, clearCart, Requests.clear in *. cbn. rewrite Hnet.
    destruct r as [okr j]. simpl in Hok. subst okr. reflexivity. }
  rewrite Htr. split; reflexivity.
Qed.

Lemma clearCart_success_resets_witness :
  state_after {| items := [Scenario.line]; loading := false;
                 error := Some "Failed to load cart" |}
    (trace (always (FetchResolves {| ok := true;
                                     json := JsonRejects "Unexpected token" |}))
       (clearCart Scenario.cartId))
  = initialState.
Proof.
  refine (proj2 (clearCart_success_resets
                   (always (FetchResolves
                              {| ok := true;
                                 json := JsonRejects "Unexpected token" |}))
                   Scenario.cartId _ _ _ _)); reflexivity.
Defined.

(** ** DerivedView: the quantity of a product in the cart *)

Lemma getProductQuantityInCart_absent state pId :
  ~ In pId (map productId (items state)) ->
  getProductQuantityInCart state pId = 0.
Proof.
  intros Habs. unfold getProductQuantityInCart.
  rewrite find_none_productId; [reflexivity|].
  apply List.Forall_forall. intros item Hin Heq. apply Habs.
  apply in_map_iff. exists item. split; assumption.
Qed.

Lemma getProductQuantityInCart_head item rest ld err :
  getProductQuantityInCart
    {| items := item :: rest; loading := ld; error := err |} (productId item)
  = quantity item.
Proof.
  unfold getProductQuantityInCart. simpl items.
  rewrite find_head_productId. reflexivity.
Qed.

Lemma getProductQuantityInCart_tail item rest ld err pId :
  productId item <> pId ->
  getProductQuantityInCart
    {| items := item :: rest; loading := ld; error := err |} pId
  = getProductQuantityInCart
      {| items := rest; loading := ld; error := err |} pId.
Proof.
  intros Hne. unfold getProductQuantityInCart, find. simpl.
  rewrite bool_decide_eq_false_2 by exact Hne. reflexivity.
Qed.

Lemma sum_over_ext_in {A} (f g : A -> Z) (l : list A) :
  (forall x, In x l -> f x = g x) -> sum_over f l = sum_over g l.
Proof.
  induction l as [|x l IH]; intros H; simpl; [reflexivity|].
  rewrite (H x) by (left; reflexivity).
  rewrite IH; [reflexivity|]. intros y Hy. apply H. right. exact Hy.
Qed.

(** X15: when the lines of the cart are of distinct products,
    [getProductQuantityInCart] gives for the product of each line the
    quantity of that line and 0 for every product without a line, and the
    item count is the sum of [getProductQuantityInCart] over the products in
    the cart. *)
Theorem getProductQuantityInCart_distinct :
  forall (state : CartState),
    List.NoDup (map productId (items state)) ->
    (forall item, In item (items state) ->
                  getProductQuantityInCart state (productId item)
                  = quantity item)
    /\ (forall pId, ~ In pId (map productId (items state)) ->
                    getProductQuantityInCart state pId = 0)
    /\ getCartItemCount state
       = sum_over (getProductQuantityInCart state) (map productId (items state)).
Proof.
  intros [its ld err]. simpl items. intros Hnd.
  assert (Hin : forall item, In item its ->
            getProductQuantityInCart
              {| items := its; loading := ld; error := err |} (productId item)
            = quantity item).
  { induction its as [|x its IH]; intros item Hitem; [destruct Hitem|].
    simpl in Hnd. apply List.NoDup_cons_iff in Hnd as [Hx Hnd].
    destruct Hitem as [<-|Hitem].
    - apply getProductQuantityInCart_head.
    - rewrite getProductQuantityInCart_tail.
      + apply IH; assumption.
      + intros Heq. apply Hx. rewrite Heq. apply in_map. exact Hitem. }
  split; [exact Hin|].
  split.
  { intros pId.
    apply (getProductQuantityInCart_absent
             {| items := its; loading := ld; error := err |} pId). }
  unfold getCartItemCount. simpl items.
  rewrite (reduce_add_sum_over quantity), Z.add_0_l, sum_over_map.
  apply sum_over_ext_in. intros item Hitem. symmetry. apply Hin. exact Hitem.
Qed.

Lemma getProductQuantityInCart_distinct_witness :
  getCartItemCount Scenario.cart
  = sum_over (getProductQuantityInCart Scenario.cart)
      (map productId (items Scenario.cart)).
Proof.
  refine (proj2 (proj2 (getProductQuantityInCart_distinct Scenario.cart _))).
  simpl. constructor; [intros H; destruct H | constructor].
Defined.

(** X16: [canAddToCart] is downward closed in the quantity: if [k] units
    of a product can be added, so can any smaller number of units. *)
Theorem canAddToCart_antitone :
  forall (product : Product) (k k' : Z),
    k' <= k ->
    canAddToCart product (val k) = true ->
    canAddToCart product (val k') = true.
Proof.
  intros product k k' Hle H. unfold canAddToCart in *. simpl in *.
  apply ge_number in H as (n & Hn & Hk).
  apply ge_number. exists n. split; [exact Hn | lia].
Qed.

Lemma canAddToCart_antitone_witness :
  canAddToCart Scenario.lamp (val 2) = true.
Proof.
  refine (canAddToCart_antitone Scenario.lamp 5 2 _ _); [lia | reflexivity].
Defined.

(** ** Callers of the provider *)

(** X17: the cart widget's own test of the new quantity changes nothing:
    for every quantity its [handleUpdateQuantity] runs exactly as
    [updateQuantity] called with that quantity would, against every network
    (both remove the line when the quantity is zero or less). *)
Theorem handleUpdateQuantity_is_updateQuantity :
  forall (net : Network) (n : nat) (state : CartState) (cartId : string)
         (pId newQuantity : Z),
    run net n (handleUpdateQuantity state cartId pId newQuantity)
    = run net n (updateQuantity state cartId pId (val newQuantity)).
Proof.
  intros net n state cartId pId newQuantity. unfold handleUpdateQuantity.
  destruct (le (val newQuantity) (val 0)) eqn:Hle; [|reflexivity].
  symmetry. apply updateQuantity_le_0. exact Hle.
Qed.

(** X18: the product card asks the backend only for a product it may add:
    when the available stock of the product (its [available_stock] when
    present, else its [stock]) is not a number of at least 1,
    [handleAddToCart] does nothing at all; when it is, [handleAddToCart]
    runs [addToCart] and its first request is the [POST] of one unit of the
    product. *)
Theorem handleAddToCart_guard :
  forall (net : Network) (cartId : string) (product : Product),
    ((forall n, to_number (getAvailableStock product) = Some n -> n < 1) ->
     handleAddToCart cartId product = Return tt
     /\ trace net (handleAddToCart cartId product) = [])
    /\ (forall n, to_number (getAvailableStock product) = Some n -> 1 <= n ->
        handleAddToCart cartId product = addToCart cartId product undefined
        /\ head (requests (trace net (handleAddToCart cartId product)))
           = Some (Requests.add cartId (prod_id product) (val 1))).
Proof.
  intros net cartId product. split.
  - intros Hno.
    assert (Hcan : canAddToCart product undefined = false).
    { destruct (canAddToCart product undefined) eqn:H; [|reflexivity].
      apply ge_number in H as (n & Hn & Hle). specialize (Hno n Hn). lia. }
    unfold handleAddToCart, trace. rewrite Hcan. split; reflexivity.
  - intros n Hn Hle.
    assert (Hcan : canAddToCart product undefined = true).
    { apply ge_number. exists n. split; assumption. }
    unfold handleAddToCart. rewrite Hcan. split; [reflexivity|].
    unfold trace.
    destruct (addToCart_cases net 0 cartId product undefined) as [[r H]|H];
      rewrite H; reflexivity.
Qed.

Lemma handleAddToCart_guard_witness :
  trace (always Scenario.accepted)
    (handleAddToCart Scenario.cartId
       {| prod_id := 2; name := "desk"; price := 90%float;
          stock := val 4; available_stock := val 0 |})
  = []
  /\ head (requests (trace (always Scenario.accepted)
                       (handleAddToCart Scenario.cartId Scenario.lamp)))
     = Some (Requests.add Scenario.cartId 1 (val 1)).
Proof.
  split.
  - refine (proj2 (proj1 (handleAddToCart_guard (always Scenario.accepted)
                            Scenario.cartId
                            {| prod_id := 2; name := "desk"; price := 90%float;
                               stock := val 4; available_stock := val 0 |}) _)).
    simpl. intros n [= <-]. lia.
  - refine (proj2 (proj2 (handleAddToCart_guard (always Scenario.accepted)
                            Scenario.cartId Scenario.lamp) 5 _ _));
      [reflexivity | lia].
Defined.

(** ** SessionIdentity: the rest of the storage *)

(** X19: [getCartId] touches no other entry of the storage: whatever the
    storage holds and whether or not an identifier is generated, every key
    other than the session key has after the call the value it had before. *)
Theorem getCartId_frame :
  forall (random36 : string) (now : Z) (ls : gmap string string) (k : string),
    k <> Session.storage_key ->
    (Session.getCartId random36 now ls).2 !! k = ls !! k.
Proof.
  intros random36 now ls k Hk.
  unfold Session.getCartId, Session.getItem, Session.setItem.
  destruct (ls !! Session.storage_key) as [s|]; simpl.
  - destruct (decide (s = "")); simpl; [|reflexivity].
    apply lookup_insert_ne. congruence.
  - apply lookup_insert_ne. congruence.
Qed.

Lemma getCartId_frame_witness :
  (Session.getCartId "0.4fzyo82mvyr" 999 {["theme" := "dark"]}).2 !! "theme"
  = Some "dark".
Proof.
  rewrite (getCartId_frame "0.4fzyo82mvyr" 999 {["theme" := "dark"]} "theme").
  - reflexivity.
  - discriminate.
Defined.

(** ** SyncEngine: where the items come from *)

(** After [loadCart] the items are the ones the store had, or the converted
    rows that the answer to its [GET] carries. *)
Lemma loadCart_items net n cartId store :
  items (state_after store (run net n (loadCart cartId)).1) = items store
  \/ exists rows reason,
      net n (Requests.load cartId)
      = FetchResolves
          {| ok := true;
             json := JsonResolves {| json_items := val rows;
                                     detail := reason |} |}
      /\ items (state_after store (run net n (loadCart cartId)).1)
         = map toFrontend rows.
Proof.
  destruct (loadCart_answer_cases net n cartId)
    as [(rows & reason & Hnet & H)|[m H]]; rewrite H.
  - right. exists rows, reason. split; [exact Hnet | reflexivity].
  - left. reflexivity.
Qed.

(** X20: the items of the store are never patched locally: against every
    network, after [loadCart], [addToCart], [removeFromCart] or
    [updateQuantity] the items are the ones the store had, or they are the
    converted rows carried by the backend's success answer to the reloading
    [GET] of that run (the first request of [loadCart], the second of the
    three others); after [clearCart] they are the ones the store had or
    none. No operation computes new items from the old ones. *)
Theorem items_only_from_backend :
  forall (net : Network) (store state : CartState) (cartId : string)
         (product : Product) (pId : Z) (quantity : js Z),
    let kept_or_reloaded (position : nat) (m : Async unit) :=
      items (state_after store (trace net m)) = items store
      \/ exists rows reason,
          net position (Requests.load cartId)
          = FetchResolves
              {| ok := true;
                 json := JsonResolves {| json_items := val rows;
                                         detail := reason |} |}
          /\ items (state_after store (trace net m)) = map toFrontend rows in
    kept_or_reloaded 0%nat (loadCart cartId)
    /\ kept_or_reloaded 1%nat (addToCart cartId product quantity)
    /\ kept_or_reloaded 1%nat (removeFromCart state cartId pId)
    /\ kept_or_reloaded 1%nat (updateQuantity state cartId pId quantity)
    /\ (items (state_after store (trace net (clearCart cartId))) = items store
        \/ items (state_after store (trace net (clearCart cartId))) = []).
Proof.
  intros net store state cartId product pId quantity kept_or_reloaded.
  subst kept_or_reloaded. unfold trace. cbv beta.
  assert (Hrm :
    items (state_after store (run net 0 (removeFromCart state cartId pId)).1)
    = items store
    \/ exists rows reason,
        net 1%nat (Requests.load cartId)
        = FetchResolves
            {| ok := true;
               json := JsonResolves {| json_items := val rows;
                                       detail := reason |} |}
        /\ items (state_after store
                    (run net 0 (removeFromCart state cartId pId)).1)
           = map toFrontend rows).
  { destruct (removeFromCart_cases net 0 state cartId pId)
      as [H|[(item & r & H)|(item & H)]]; rewrite H;
      try (left; reflexivity).
    cbn [fst]. apply (loadCart_items net 1 cartId store). }
  split; [apply loadCart_items|].
  split.
  { destruct (addToCart_cases net 0 cartId product quantity) as [[r H]|H];
      rewrite H; [left; reflexivity|].
    cbn [fst].
    apply (loadCart_items net 1 cartId (cartReducer store (SET_LOADING true))). }
  split; [exact Hrm|].
  split.
  { destruct (updateQuantity_cases net 0 state cartId pId quantity)
      as [H|[H|[(item & r & H)|(item & H)]]]; rewrite H;
      try (left; reflexivity); try exact Hrm.
    cbn [fst]. apply (loadCart_items net 1 cartId store). }
  destruct (clearCart_cases net 0 cartId) as [[r H]|H]; rewrite H;
    [left | right]; reflexivity.
Qed.

(** ** The provider on mount *)

(** X21: on mount the provider asks for the cart of the stored session, and
    for the same cart after a page reload: the one request of the load
    started by the first render is the [GET] of the cart whose identifier
    the storage holds afterwards, and a later first render on that storage,
    whatever the random source and the clock give then, leaves the storage
    as it is and sends the same request. *)
Theorem mount_loads_stored_session :
  forall (net net' : Network) (random36 random36' : string) (now now' : Z)
         (ls : gmap string string),
    exists cartId,
      (mount random36 now ls).1 !! Session.storage_key = Some cartId
      /\ requests (trace net (mount random36 now ls).2)
         = [Requests.load cartId]
      /\ (mount random36' now' (mount random36 now ls).1).1
         = (mount random36 now ls).1
      /\ requests (trace net' (mount random36' now' (mount random36 now ls).1).2)
         = [Requests.load cartId].
Proof.
  intros net net' random36 random36' now now' ls.
  destruct (SessionFacts.getCartId_stored random36 now ls) as [Hst Hne].
  unfold mount.
  destruct (Session.getCartId random36 now ls) as [cartId ls1] eqn:Hfirst.
  cbn [fst snd] in *.
  rewrite (SessionFacts.getCartId_present random36' now' ls1 cartId Hst Hne).
  cbn [fst snd]. exists cartId. unfold trace.
  rewrite !loadCart_requests. repeat split. exact Hst.
Qed.

(** ** DerivedView: order and emptiness *)

Lemma sum_over_Permutation {A} (f : A -> Z) (l1 l2 : list A) :
  Permutation l1 l2 -> sum_over f l1 = sum_over f l2.
Proof.
  induction 1 as [|x l1 l2 _ IH|x y l|l1 l2 l3 _ IH1 _ IH2]; simpl.
  - reflexivity.
  - rewrite IH. reflexivity.
  - lia.
  - congruence.
Qed.

(** X22: the item count does not depend on the order of the lines: two
    states whose items are rearrangements of each other have the same item
    count. *)
Theorem item_count_order_independent :
  forall (state1 state2 : CartState),
    Permutation (items state1) (items state2) ->
    getCartItemCount state1 = getCartItemCount state2.
Proof.
  intros state1 state2 Hperm. unfold getCartItemCount.
  rewrite !(reduce_add_sum_over quantity).
  rewrite (sum_over_Permutation quantity _ _ Hperm). reflexivity.
Qed.

Lemma item_count_order_independent_witness :
  getCartItemCount Scenario.ascending = getCartItemCount Scenario.descending.
Proof.
  refine (item_count_order_independent Scenario.ascending Scenario.descending _).
  simpl. apply Permutation_sym.
  apply (Permutation_rev [Scenario.priced 3 0.3%float 1;
                          Scenario.priced 2 0.2%float 1;
                          Scenario.priced 1 0.1%float 1]).
Defined.

Lemma sum_over_pos {A} (f : A -> Z) (l : list A) :
  Forall (fun x => 0 < f x) l -> l <> [] -> 0 < sum_over f l.
Proof.
  induction 1 as [|x l Hx Hl IH]; intros Hne; [congruence|].
  simpl. destruct l as [|y l]; simpl in *; [lia|].
  assert (0 < f y + sum_over f l) by (apply IH; discriminate). lia.
Qed.

(** X23: when every line has a positive quantity, the item count is zero
    exactly when the cart has no line (which is when the collapsed cart
    widget hides itself), and it is positive otherwise. *)
Theorem getCartItemCount_zero_iff_empty :
  forall (state : CartState),
    Forall (fun item => 0 < quantity item) (items state) ->
    (getCartItemCount state = 0 <-> items state = [])
    /\ 0 <= getCartItemCount state.
Proof.
  intros state Hpos. unfold getCartItemCount.
  rewrite (reduce_add_sum_over quantity), Z.add_0_l.
  destruct (items state) as [|item rest] eqn:Hitems.
  - simpl. split; [split; reflexivity | lia].
  - assert (0 < sum_over quantity (item :: rest))
      by (apply sum_over_pos; [exact Hpos | discriminate]).
    split; [split; [lia | discriminate] | lia].
Qed.

Lemma getCartItemCount_zero_iff_empty_witness :
  (getCartItemCount Scenario.cart = 0 <-> items Scenario.cart = [])
  /\ 0 <= getCartItemCount Scenario.cart.
Proof.
  refine (getCartItemCount_zero_iff_empty Scenario.cart _).
  simpl. constructor; [simpl; lia | constructor].
Defined.
